(** * Auto Move Taskbar on Fullscreen: a model of the mod and its properties

    The mod (src/mods/taskbar-auto-fullscreen.wh.cpp) keeps a handful of
    process-wide variables, asks the window manager a few questions and
    intercepts two operations of the shell.  The model below follows the
    source function by function:

    - the answers of the window manager are the fields of a record [OS]
      (one snapshot of the system, as seen by one call);
    - the process-wide variables are the fields of a record [Globals];
    - code that writes them or requests a redisplay is written in a small
      state-and-trace monad [M];
    - the intercepted shell operation is moreover given as a sequence of
      single loads of the shared variables, so that it can be run against a
      poll-loop transition that is in progress.

    Diagnostic output ([Log], [Wh_Log], the iteration counter that only
    feeds the log) is left out: no property below depends on it. *)

From Stdlib Require Import ZArith List Bool Lia.
Import ListNotations.
Open Scope Z_scope.

(** ** Win32 data *)

(** Handles are pointer-sized values; [nullptr] is 0. *)
Definition HWND := Z.
Definition HMONITOR := Z.
Definition nullptr : Z := 0.

(** [!h] on a handle. *)
Definition is_null (h : Z) : bool := h =? nullptr.

Record POINT := mkPOINT { pt_x : Z; pt_y : Z }.

Record RECT := mkRECT {
  rc_left : Z; rc_top : Z; rc_right : Z; rc_bottom : Z }.

(** [MONITORINFO]: the display rectangle, the work area and the flags. *)
Record MONITORINFO := mkMONITORINFO {
  rcMonitor : RECT; rcWork : RECT; dwFlags : Z }.

Definition MONITORINFOF_PRIMARY : Z := 1.
Definition MONITOR_DEFAULTTOPRIMARY : Z := 1.
Definition MONITOR_DEFAULTTONEAREST : Z := 2.
Definition WS_VISIBLE : Z := 0x10000000.

(** [int] and [LONG] are 32 bits wide; the result of an operation is
    reduced to the signed 32-bit range. *)
Definition wrap32 (z : Z) : Z := (z + 2 ^ 31) mod 2 ^ 32 - 2 ^ 31.
Definition sub32 (a b : Z) : Z := wrap32 (a - b).
Definition add32 (a b : Z) : Z := wrap32 (a + b).
Definition INT_MAX : Z := 2 ^ 31 - 1.
Definition INT_MIN : Z := - 2 ^ 31.
Definition fits_int (z : Z) : Prop := INT_MIN <= z <= INT_MAX.

(** ** The window manager, as the mod queries it *)

Record OS := mkOS {
  IsWindowVisible : HWND -> bool;
  GetDesktopWindow : HWND;
  GetShellWindow : HWND;
  (** [GetWindowLong(h, GWL_STYLE)] *)
  GetWindowLong_STYLE : HWND -> Z;
  (** [GetWindowRect]: [None] when the call returns FALSE *)
  GetWindowRect : HWND -> option RECT;
  (** the unintercepted [MonitorFromPoint] *)
  MonitorFromPoint_Original : POINT -> Z -> HMONITOR;
  (** [GetMonitorInfo]: [None] when the call returns FALSE *)
  GetMonitorInfo : HMONITOR -> option MONITORINFO;
  (** the displays in the order [EnumDisplayMonitors] reports them *)
  EnumDisplayMonitors : list HMONITOR;
  GetForegroundWindow : HWND;
  IsWindow : HWND -> bool;
  (** [FindWindow(L"Shell_TrayWnd")], kept only if owned by this process *)
  FindTaskbarInProcess : HWND;
  (** whether [HookSymbols] on taskbar.dll succeeds *)
  HookSymbols_ok : bool;
  (** the handle [CreateThread] returns ([nullptr] on failure) *)
  CreateThread_result : Z;
  (** what [Wh_GetIntSetting] returns for the three settings *)
  Wh_GetIntSetting_secondaryMonitor : Z;
  Wh_GetIntSetting_pollInterval : Z;
  Wh_GetIntSetting_enableLogging : Z
}.

(** ** The process-wide variables *)

Record Settings := mkSettings {
  secondaryMonitor : Z; pollInterval : Z; enableLogging : bool }.

Record Globals := mkGlobals {
  g_settings : Settings;
  g_initialized : bool;
  g_unloading : bool;
  g_forceSecondary : bool;
  g_primaryMonitor : HMONITOR;
  g_secondaryMonitor : HMONITOR;
  g_taskbarHwnd : HWND;
  g_monitorThread : Z;
  g_running : bool;
  g_fullscreenApp : HWND
}.

Definition set_settings (v : Settings) (g : Globals) : Globals :=
  mkGlobals v (g_initialized g) (g_unloading g) (g_forceSecondary g)
    (g_primaryMonitor g) (g_secondaryMonitor g) (g_taskbarHwnd g)
    (g_monitorThread g) (g_running g) (g_fullscreenApp g).
Definition set_initialized (v : bool) (g : Globals) : Globals :=
  mkGlobals (g_settings g) v (g_unloading g) (g_forceSecondary g)
    (g_primaryMonitor g) (g_secondaryMonitor g) (g_taskbarHwnd g)
    (g_monitorThread g) (g_running g) (g_fullscreenApp g).
Definition set_unloading (v : bool) (g : Globals) : Globals :=
  mkGlobals (g_settings g) (g_initialized g) v (g_forceSecondary g)
    (g_primaryMonitor g) (g_secondaryMonitor g) (g_taskbarHwnd g)
    (g_monitorThread g) (g_running g) (g_fullscreenApp g).
Definition set_forceSecondary (v : bool) (g : Globals) : Globals :=
  mkGlobals (g_settings g) (g_initialized g) (g_unloading g) v
    (g_primaryMonitor g) (g_secondaryMonitor g) (g_taskbarHwnd g)
    (g_monitorThread g) (g_running g) (g_fullscreenApp g).
Definition set_primaryMonitor (v : HMONITOR) (g : Globals) : Globals :=
  mkGlobals (g_settings g) (g_initialized g) (g_unloading g)
    (g_forceSecondary g) v (g_secondaryMonitor g) (g_taskbarHwnd g)
    (g_monitorThread g) (g_running g) (g_fullscreenApp g).
Definition set_secondaryMonitor (v : HMONITOR) (g : Globals) : Globals :=
  mkGlobals (g_settings g) (g_initialized g) (g_unloading g)
    (g_forceSecondary g) (g_primaryMonitor g) v (g_taskbarHwnd g)
    (g_monitorThread g) (g_running g) (g_fullscreenApp g).
Definition set_taskbarHwnd (v : HWND) (g : Globals) : Globals :=
  mkGlobals (g_settings g) (g_initialized g) (g_unloading g)
    (g_forceSecondary g) (g_primaryMonitor g) (g_secondaryMonitor g) v
    (g_monitorThread g) (g_running g) (g_fullscreenApp g).
Definition set_monitorThread (v : Z) (g : Globals) : Globals :=
  mkGlobals (g_settings g) (g_initialized g) (g_unloading g)
    (g_forceSecondary g) (g_primaryMonitor g) (g_secondaryMonitor g)
    (g_taskbarHwnd g) v (g_running g) (g_fullscreenApp g).
Definition set_running (v : bool) (g : Globals) : Globals :=
  mkGlobals (g_settings g) (g_initialized g) (g_unloading g)
    (g_forceSecondary g) (g_primaryMonitor g) (g_secondaryMonitor g)
    (g_taskbarHwnd g) (g_monitorThread g) v (g_fullscreenApp g).
Definition set_fullscreenApp (v : HWND) (g : Globals) : Globals :=
  mkGlobals (g_settings g) (g_initialized g) (g_unloading g)
    (g_forceSecondary g) (g_primaryMonitor g) (g_secondaryMonitor g)
    (g_taskbarHwnd g) (g_monitorThread g) (g_running g) v.

(** The variables as the loader leaves them: everything zero. *)
Definition globals0 : Globals :=
  mkGlobals (mkSettings 0 0 false) false false false
    nullptr nullptr nullptr nullptr false nullptr.

(** ** Monitor registry *)

(** The body of [GetMonitorByIndex]: the enumeration callback run over the
    displays, [currentIndex] being the captured counter.  Returning FALSE
    from the callback ends the enumeration. *)
Fixpoint monitorEnum (os : OS) (index : Z) (mons : list HMONITOR)
    (currentIndex : Z) : HMONITOR :=
  match mons with
  | [] => nullptr
  | hMonitor :: rest =>
      match GetMonitorInfo os hMonitor with
      | Some mi =>
          if negb (Z.land (dwFlags mi) MONITORINFOF_PRIMARY =? 0)
          then monitorEnum os index rest currentIndex
          else if currentIndex =? index then hMonitor
          else monitorEnum os index rest (add32 currentIndex 1)
      | None => monitorEnum os index rest currentIndex
      end
  end.

Definition GetMonitorByIndex (os : OS) (index : Z) : HMONITOR :=
  monitorEnum os index (EnumDisplayMonitors os) 0.

(** [MonitorFromPoint_Hook]: the intercepted query. *)
Definition MonitorFromPoint_Hook (os : OS) (g : Globals)
    (pt : POINT) (flags : Z) : HMONITOR :=
  if (pt_x pt =? 0) && (pt_y pt =? 0) && g_forceSecondary g
     && negb (is_null (g_secondaryMonitor g))
  then g_secondaryMonitor g
  else MonitorFromPoint_Original os pt flags.

(** [RefreshMonitors].  The call to [MonitorFromPoint] reaches whatever is
    installed at that moment, so it is a parameter: the unintercepted query
    during [Wh_ModInit] (the interception is set up after the refresh), the
    intercepted one in [Wh_ModSettingsChanged]. *)
Definition RefreshMonitors (MonitorFromPoint : POINT -> Z -> HMONITOR)
    (os : OS) (g : Globals) : Globals :=
  let g1 := set_primaryMonitor
              (MonitorFromPoint (mkPOINT 0 0) MONITOR_DEFAULTTOPRIMARY) g in
  set_secondaryMonitor
    (GetMonitorByIndex os (sub32 (secondaryMonitor (g_settings g1)) 1)) g1.

(** ** Fullscreen classifier *)

Definition rect_width (r : RECT) : Z := sub32 (rc_right r) (rc_left r).
Definition rect_height (r : RECT) : Z := sub32 (rc_bottom r) (rc_top r).

Definition IsWindowFullscreen (os : OS) (g : Globals) (hWnd : HWND) : bool :=
  if is_null hWnd || negb (IsWindowVisible os hWnd) then false else
  let desktop := GetDesktopWindow os in
  let shell := GetShellWindow os in
  if (hWnd =? desktop) || (hWnd =? shell) || (hWnd =? g_taskbarHwnd g)
  then false else
  let style := GetWindowLong_STYLE os hWnd in
  if Z.land style WS_VISIBLE =? 0 then false else
  match GetWindowRect os hWnd with
  | None => false
  | Some windowRect =>
      let hMonitor :=
        MonitorFromPoint_Original os
          (mkPOINT (rc_left windowRect) (rc_top windowRect))
          MONITOR_DEFAULTTONEAREST in
      if negb (hMonitor =? g_primaryMonitor g) then false else
      match GetMonitorInfo os hMonitor with
      | None => false
      | Some mi =>
          let monitorWidth := rect_width (rcMonitor mi) in
          let monitorHeight := rect_height (rcMonitor mi) in
          let windowWidth := rect_width windowRect in
          let windowHeight := rect_height windowRect in
          let coversMonitor :=
            (sub32 monitorWidth 10 <=? windowWidth)
            && (sub32 monitorHeight 10 <=? windowHeight) in
          coversMonitor
      end
  end.

(** ** State and trace *)

(** What the mod does to the outside: a call of [ApplyTaskbarSettings]
    (the request to the shell to place the taskbar again; [sentTo] is the
    window the message 0x5B8 went to, [nullptr] when no taskbar window was
    found and nothing was sent), and the start of the poll thread. *)
Inductive Event :=
| Redisplay (sentTo : HWND)
| ThreadStarted.

(** A computation reads and writes the variables and appends to the trace. *)
Definition M (A : Type) : Type := Globals -> A * Globals * list Event.

Definition ret {A} (a : A) : M A := fun g => (a, g, []).
Definition bind {A B} (m : M A) (k : A -> M B) : M B :=
  fun g =>
    let '(a, g1, t1) := m g in
    let '(b, g2, t2) := k a g1 in
    (b, g2, t1 ++ t2).
Definition get : M Globals := fun g => (g, g, []).
Definition modify (f : Globals -> Globals) : M unit := fun g => (tt, f g, []).
Definition emit (e : Event) : M unit := fun g => (tt, g, [e]).

Declare Scope mod_scope.
Delimit Scope mod_scope with wh.
Notation "x <- m ;; k" := (bind m (fun x => k))
  (at level 61, m at next level, right associativity) : mod_scope.
Notation "m ;; k" := (bind m (fun _ => k))
  (at level 61, right associativity) : mod_scope.
Open Scope mod_scope.

Definition result_of {A} (r : A * Globals * list Event) : A := fst (fst r).
Definition state_of {A} (r : A * Globals * list Event) : Globals := snd (fst r).
Definition trace_of {A} (r : A * Globals * list Event) : list Event := snd r.

(** [ApplyTaskbarSettings] *)
Definition ApplyTaskbarSettings (os : OS) : M unit :=
  g <- get ;;
  (if is_null (g_taskbarHwnd g)
   then modify (set_taskbarHwnd (FindTaskbarInProcess os))
   else ret tt) ;;
  g <- get ;;
  emit (Redisplay (g_taskbarHwnd g)).

(** ** Poll loop *)

(** One pass through the body of the [while] loop of [MonitorThreadFunc];
    [lastCheckedWindow] is the thread's local variable, whose new value is
    returned.  [os] is the system as this pass sees it. *)
Definition loop_body (os : OS) (lastCheckedWindow : HWND) : M HWND :=
  let hWnd := GetForegroundWindow os in
  g <- get ;;
  (if negb (is_null (g_fullscreenApp g)) && negb (IsWindow os (g_fullscreenApp g))
   then modify (set_fullscreenApp nullptr) ;;
        modify (set_forceSecondary false) ;;
        ApplyTaskbarSettings os
   else ret tt) ;;
  let needsCheck := negb (hWnd =? lastCheckedWindow) in
  (if needsCheck
   then g <- get ;;
        let isFullscreen := IsWindowFullscreen os g hWnd in
        if isFullscreen && is_null (g_fullscreenApp g)
        then modify (set_fullscreenApp hWnd) ;;
             modify (set_forceSecondary true) ;;
             ApplyTaskbarSettings os
        else ret tt
   else ret tt) ;;
  ret hWnd.

(** The loop body as the specification allows it: no change-detection gate,
    the foreground window is classified on every pass. *)
Definition loop_body_every_tick (os : OS) (lastCheckedWindow : HWND) : M HWND :=
  let hWnd := GetForegroundWindow os in
  g <- get ;;
  (if negb (is_null (g_fullscreenApp g)) && negb (IsWindow os (g_fullscreenApp g))
   then modify (set_fullscreenApp nullptr) ;;
        modify (set_forceSecondary false) ;;
        ApplyTaskbarSettings os
   else ret tt) ;;
  (g <- get ;;
   let isFullscreen := IsWindowFullscreen os g hWnd in
   if isFullscreen && is_null (g_fullscreenApp g)
   then modify (set_fullscreenApp hWnd) ;;
        modify (set_forceSecondary true) ;;
        ApplyTaskbarSettings os
   else ret tt) ;;
  ret hWnd.

(** [while (g_running) { body; Sleep }] over the successive snapshots of the
    system, one per pass. *)
Fixpoint poll_loop (body : OS -> HWND -> M HWND) (ticks : list OS)
    (lastCheckedWindow : HWND) : M HWND :=
  match ticks with
  | [] => ret lastCheckedWindow
  | os :: rest =>
      g <- get ;;
      if g_running g
      then last' <- body os lastCheckedWindow ;; poll_loop body rest last'
      else ret lastCheckedWindow
  end.

(** [MonitorThreadFunc]: the thread's exit code. *)
Definition MonitorThreadFunc_with (body : OS -> HWND -> M HWND)
    (ticks : list OS) : M Z :=
  g <- get ;;
  if is_null (g_secondaryMonitor g) then ret 1
  else poll_loop body ticks nullptr ;; ret 0.

Definition MonitorThreadFunc (ticks : list OS) : M Z :=
  MonitorThreadFunc_with loop_body ticks.

(** ** Interception of the shell's stuck-monitor decision *)

(** [TrayUI__SetStuckMonitor_Hook]: the display handed to
    [TrayUI__SetStuckMonitor_Original]. *)
Definition TrayUI__SetStuckMonitor_Hook (os : OS) (g : Globals)
    (monitor : HMONITOR) : HMONITOR :=
  if negb (g_forceSecondary g) && g_unloading g then monitor else
  let monitor :=
    if negb (g_unloading g) && g_forceSecondary g
       && negb (is_null (g_secondaryMonitor g))
    then g_secondaryMonitor g
    else if negb (g_forceSecondary g) && negb (is_null (g_primaryMonitor g))
    then g_primaryMonitor g
    else monitor in
  let monitor :=
    if is_null monitor
    then MonitorFromPoint_Original os (mkPOINT 0 0) MONITOR_DEFAULTTONEAREST
    else monitor in
  monitor.

(** The same hook with the first [if] removed: the decision table evaluated
    on every call. *)
Definition SetStuckMonitor_full_table (os : OS) (g : Globals)
    (monitor : HMONITOR) : HMONITOR :=
  let monitor :=
    if negb (g_unloading g) && g_forceSecondary g
       && negb (is_null (g_secondaryMonitor g))
    then g_secondaryMonitor g
    else if negb (g_forceSecondary g) && negb (is_null (g_primaryMonitor g))
    then g_primaryMonitor g
    else monitor in
  let monitor :=
    if is_null monitor
    then MonitorFromPoint_Original os (mkPOINT 0 0) MONITOR_DEFAULTTONEAREST
    else monitor in
  monitor.

(** ** Lifecycle *)

Definition LoadSettings (os : OS) : M unit :=
  modify (set_settings
            (mkSettings (Wh_GetIntSetting_secondaryMonitor os)
                        (Wh_GetIntSetting_pollInterval os)
                        (negb (Wh_GetIntSetting_enableLogging os =? 0)))).

(** [Wh_ModInit]: TRUE or FALSE. *)
Definition Wh_ModInit (os : OS) : M bool :=
  LoadSettings os ;;
  modify (set_taskbarHwnd (FindTaskbarInProcess os)) ;;
  modify (RefreshMonitors (MonitorFromPoint_Original os) os) ;;
  g <- get ;;
  if is_null (g_primaryMonitor g) || is_null (g_secondaryMonitor g)
  then ret false else
  if negb (HookSymbols_ok os) then ret false else
  modify (set_initialized true) ;;
  modify (set_running true) ;;
  modify (set_monitorThread (CreateThread_result os)) ;;
  g <- get ;;
  if is_null (g_monitorThread g) then ret false else
  emit ThreadStarted ;;
  ret true.

(** [Wh_ModUninit].  [thread_rest] is whatever the poll thread still does
    between the two flags being set and the end of the wait on its handle. *)
Definition Wh_ModUninit (os : OS) (thread_rest : M unit) : M unit :=
  modify (set_unloading true) ;;
  modify (set_running false) ;;
  g <- get ;;
  (if negb (is_null (g_monitorThread g)) then thread_rest else ret tt) ;;
  modify (set_fullscreenApp nullptr) ;;
  modify (set_forceSecondary false) ;;
  ApplyTaskbarSettings os.

(** [Wh_ModSettingsChanged] *)
Definition Wh_ModSettingsChanged (os : OS) : M unit :=
  LoadSettings os ;;
  g <- get ;;
  modify (RefreshMonitors (MonitorFromPoint_Hook os g) os).

(** ** The handlers against a transition in progress *)

(** A handler as the sequence of loads of shared variables it performs, in
    program order ([&&] evaluates its right operand only when the left one
    is true), ending with the value it hands on. *)
Inductive Steps :=
| Load_forceSecondary (k : bool -> Steps)
| Load_unloading (k : bool -> Steps)
| Load_primaryMonitor (k : HMONITOR -> Steps)
| Load_secondaryMonitor (k : HMONITOR -> Steps)
| Finish (result : HMONITOR).

(** Lines 233-237 of the hook: the fallback and the call of the original. *)
Definition SetStuckMonitor_finish (os : OS) (monitor : HMONITOR) : Steps :=
  Finish (if is_null monitor
          then MonitorFromPoint_Original os (mkPOINT 0 0) MONITOR_DEFAULTTONEAREST
          else monitor).

(** Line 226: [else if (!g_forceSecondary && g_primaryMonitor)]. *)
Definition SetStuckMonitor_else_if (os : OS) (monitor : HMONITOR) : Steps :=
  Load_forceSecondary (fun force =>
    if negb force
    then Load_primaryMonitor (fun p =>
           if negb (is_null p)
           then Load_primaryMonitor (fun p' => SetStuckMonitor_finish os p')
           else SetStuckMonitor_finish os monitor)
    else SetStuckMonitor_finish os monitor).

(** Line 221: [if (!g_unloading && g_forceSecondary && g_secondaryMonitor)]. *)
Definition SetStuckMonitor_decide (os : OS) (monitor : HMONITOR) : Steps :=
  Load_unloading (fun unloading =>
    if negb unloading
    then Load_forceSecondary (fun force =>
           if force
           then Load_secondaryMonitor (fun s =>
                  if negb (is_null s)
                  then Load_secondaryMonitor (fun s' =>
                         SetStuckMonitor_finish os s')
                  else SetStuckMonitor_else_if os monitor)
           else SetStuckMonitor_else_if os monitor)
    else SetStuckMonitor_else_if os monitor).

(** [TrayUI__SetStuckMonitor_Hook] load by load, from line 212 on. *)
Definition SetStuckMonitor_steps (os : OS) (monitor : HMONITOR) : Steps :=
  Load_forceSecondary (fun force =>
    if negb force
    then Load_unloading (fun unloading =>
           if unloading then Finish monitor
           else SetStuckMonitor_decide os monitor)
    else SetStuckMonitor_decide os monitor).

(** [MonitorFromPoint_Hook] load by load. *)
Definition MonitorFromPoint_steps (os : OS) (pt : POINT) (flags : Z) : Steps :=
  if (pt_x pt =? 0) && (pt_y pt =? 0)
  then Load_forceSecondary (fun force =>
         if force
         then Load_secondaryMonitor (fun s =>
                if negb (is_null s)
                then Load_secondaryMonitor (fun s' => Finish s')
                else Finish (MonitorFromPoint_Original os pt flags))
         else Finish (MonitorFromPoint_Original os pt flags))
  else Finish (MonitorFromPoint_Original os pt flags).

(** One load, performed on the variables as they are at that moment. *)
Definition load_step (g : Globals) (p : Steps) : Steps :=
  match p with
  | Load_forceSecondary k => k (g_forceSecondary g)
  | Load_unloading k => k (g_unloading g)
  | Load_primaryMonitor k => k (g_primaryMonitor g)
  | Load_secondaryMonitor k => k (g_secondaryMonitor g)
  | Finish r => Finish r
  end.

(** The handler run to its end with nothing else writing: every load sees
    the same snapshot. *)
Fixpoint run_snapshot (g : Globals) (p : Steps) : HMONITOR :=
  match p with
  | Load_forceSecondary k => run_snapshot g (k (g_forceSecondary g))
  | Load_unloading k => run_snapshot g (k (g_unloading g))
  | Load_primaryMonitor k => run_snapshot g (k (g_primaryMonitor g))
  | Load_secondaryMonitor k => run_snapshot g (k (g_secondaryMonitor g))
  | Finish r => r
  end.

(** The values of [g_forceSecondary] the handler loads on such a run. *)
Fixpoint forcing_loads_snapshot (g : Globals) (p : Steps) : list bool :=
  match p with
  | Load_forceSecondary k =>
      g_forceSecondary g :: forcing_loads_snapshot g (k (g_forceSecondary g))
  | Load_unloading k => forcing_loads_snapshot g (k (g_unloading g))
  | Load_primaryMonitor k => forcing_loads_snapshot g (k (g_primaryMonitor g))
  | Load_secondaryMonitor k =>
      forcing_loads_snapshot g (k (g_secondaryMonitor g))
  | Finish _ => []
  end.

(** Who moves next: the poll thread (its next write) or the handler (its
    next load). *)
Inductive Actor := Poll | Handler.

(** A handler run against the pending writes of the poll thread, under a
    schedule.  A [Poll] move with no write left changes nothing; when the
    schedule ends the handler finishes on the variables as they are. *)
Fixpoint interleave (sched : list Actor) (writes : list (Globals -> Globals))
    (g : Globals) (p : Steps) : HMONITOR :=
  match sched with
  | [] => run_snapshot g p
  | Poll :: sched' =>
      match writes with
      | [] => interleave sched' [] g p
      | w :: writes' => interleave sched' writes' (w g) p
      end
  | Handler :: sched' =>
      match p with
      | Finish r => r
      | _ => interleave sched' writes g (load_step g p)
      end
  end.

(** The values of [g_forceSecondary] loaded on that run. *)
Fixpoint forcing_loads (sched : list Actor) (writes : list (Globals -> Globals))
    (g : Globals) (p : Steps) : list bool :=
  match sched with
  | [] => forcing_loads_snapshot g p
  | Poll :: sched' =>
      match writes with
      | [] => forcing_loads sched' [] g p
      | w :: writes' => forcing_loads sched' writes' (w g) p
      end
  | Handler :: sched' =>
      match p with
      | Finish _ => []
      | Load_forceSecondary _ =>
          g_forceSecondary g :: forcing_loads sched' writes g (load_step g p)
      | _ => forcing_loads sched' writes g (load_step g p)
      end
  end.

(** The two transitions of the poll loop, write by write (lines 335-336 and
    315-316 of [MonitorThreadFunc]). *)
Definition entry_writes (hWnd : HWND) : list (Globals -> Globals) :=
  [set_fullscreenApp hWnd; set_forceSecondary true].
Definition exit_writes : list (Globals -> Globals) :=
  [set_fullscreenApp nullptr; set_forceSecondary false].

Definition apply_writes (writes : list (Globals -> Globals)) (g : Globals)
    : Globals :=
  fold_left (fun g w => w g) writes g.

(** All elements of a list of booleans are the same. *)
Fixpoint all_same (l : list bool) : bool :=
  match l with
  | [] => true
  | b :: rest =>
      match rest with
      | [] => true
      | c :: _ => Bool.eqb b c && all_same rest
      end
  end.

(** ** Sample systems used in the examples *)

(** Windows: 100 and 200 are applications, 1 the desktop, 2 the shell,
    3 the taskbar.  Displays: 11 (primary, 1920x1080, work area 1920x1040),
    12 and 13. *)
Definition primary_info : MONITORINFO :=
  mkMONITORINFO (mkRECT 0 0 1920 1080) (mkRECT 0 0 1920 1040) 1.
Definition second_info : MONITORINFO :=
  mkMONITORINFO (mkRECT 1920 0 3840 1080) (mkRECT 1920 0 3840 1080) 0.
Definition third_info : MONITORINFO :=
  mkMONITORINFO (mkRECT 3840 0 5760 1080) (mkRECT 3840 0 5760 1080) 0.

(** A desktop on which every application window has rectangle [r], the
    foreground window is [fg], the windows in [dead] no longer exist and the
    configured secondary index is [n]. *)
Definition sample_os (r : RECT) (fg : HWND) (dead : list HWND) (n : Z) : OS :=
  mkOS (fun _ => true) 1 2 (fun _ => WS_VISIBLE)
       (fun _ => Some r)
       (fun pt _ => if pt_x pt <? 1920 then 11
                    else if pt_x pt <? 3840 then 12 else 13)
       (fun h => if h =? 11 then Some primary_info
                 else if h =? 12 then Some second_info
                 else if h =? 13 then Some third_info else None)
       [11; 12; 13] fg
       (fun h => negb (existsb (Z.eqb h) dead))
       3 true 77 n 2000 0.

(** The variables after a successful start with displays 11 and 12. *)
Definition running0 : Globals :=
  mkGlobals (mkSettings 1 2000 false) true false false 11 12 3 77 true nullptr.

(** ** The properties, in the words of the specification *)

(** What the hook passes on when its choice is [monitor]: lines 233-235. *)
Definition origin_fallback (os : OS) (monitor : HMONITOR) : HMONITOR :=
  if is_null monitor
  then MonitorFromPoint_Original os (mkPOINT 0 0) MONITOR_DEFAULTTONEAREST
  else monitor.

(** The window may be classified at all: not null, visible (also by its
    style bit), none of the desktop, the shell and the taskbar. *)
Definition eligible (os : OS) (g : Globals) (w : HWND) : Prop :=
  w <> nullptr /\ IsWindowVisible os w = true /\
  Z.land (GetWindowLong_STYLE os w) WS_VISIBLE <> 0 /\
  w <> GetDesktopWindow os /\ w <> GetShellWindow os /\
  w <> g_taskbarHwnd g.

(** [window] is at most 10 pixels short of [area] in each direction. *)
Definition covers (area window : RECT) : Prop :=
  rect_width window >= sub32 (rect_width area) 10 /\
  rect_height window >= sub32 (rect_height area) 10.

(** The window's top-left corner is on the primary display and the window
    covers the rectangle [area] of that display. *)
Definition covers_primary (area : MONITORINFO -> RECT) (os : OS) (g : Globals)
    (w : HWND) : Prop :=
  exists r mi,
    GetWindowRect os w = Some r /\
    MonitorFromPoint_Original os (mkPOINT (rc_left r) (rc_top r))
      MONITOR_DEFAULTTONEAREST = g_primaryMonitor g /\
    GetMonitorInfo os (g_primaryMonitor g) = Some mi /\
    covers (area mi) r.

(** The classifier as the specification describes it: against the work
    area of the primary display. *)
Definition fullscreen_by_work_area (os : OS) (g : Globals) (w : HWND) : Prop :=
  eligible os g w /\ covers_primary rcWork os g w.

(** The classifier against the whole display rectangle. *)
Definition fullscreen_by_display (os : OS) (g : Globals) (w : HWND) : Prop :=
  eligible os g w /\ covers_primary rcMonitor os g w.

(** The four clauses of the specification's decision for the stuck-monitor
    hook. *)
Definition clause_forcing (os : OS) (g : Globals) (m : HMONITOR) : Prop :=
  g_forceSecondary g = true -> g_secondaryMonitor g <> nullptr ->
  TrayUI__SetStuckMonitor_Hook os g m = g_secondaryMonitor g.
Definition clause_idle (os : OS) (g : Globals) (m : HMONITOR) : Prop :=
  g_forceSecondary g = false -> g_unloading g = false ->
  g_primaryMonitor g <> nullptr ->
  TrayUI__SetStuckMonitor_Hook os g m = g_primaryMonitor g.
Definition clause_otherwise (os : OS) (g : Globals) (m : HMONITOR) : Prop :=
  ~ (g_forceSecondary g = true /\ g_secondaryMonitor g <> nullptr) ->
  ~ (g_forceSecondary g = false /\ g_unloading g = false /\
     g_primaryMonitor g <> nullptr) ->
  TrayUI__SetStuckMonitor_Hook os g m = m.
Definition clause_shutdown (os : OS) (g : Globals) (m : HMONITOR) : Prop :=
  g_unloading g = true -> TrayUI__SetStuckMonitor_Hook os g m = m.

(** The taskbar window [ApplyTaskbarSettings] ends up with. *)
Definition resolve_taskbar (os : OS) (g : Globals) : HWND :=
  if is_null (g_taskbarHwnd g) then FindTaskbarInProcess os
  else g_taskbarHwnd g.

(** The tracked window is set and no longer exists. *)
Definition tracked_gone (os : OS) (g : Globals) : Prop :=
  g_fullscreenApp g <> nullptr /\ IsWindow os (g_fullscreenApp g) = false.

(** Whether, on a pass that has just dropped the tracked window, the
    foreground window is examined and taken as the new tracked window. *)
Definition reenters (os : OS) (lastCheckedWindow : HWND) (g : Globals) : bool :=
  negb (GetForegroundWindow os =? lastCheckedWindow)
  && IsWindowFullscreen os (set_taskbarHwnd (resolve_taskbar os g) g)
       (GetForegroundWindow os).

(** A display is flagged primary. *)
Definition is_primary (os : OS) (h : HMONITOR) : bool :=
  match GetMonitorInfo os h with
  | Some mi => negb (Z.land (dwFlags mi) MONITORINFOF_PRIMARY =? 0)
  | None => false
  end.

(** The enumerated displays with the primary filtered out. *)
Definition non_primary (os : OS) : list HMONITOR :=
  filter (fun h => negb (is_primary os h)) (EnumDisplayMonitors os).

(** A display the enumeration callback counts: it answers [GetMonitorInfo]
    and is not flagged primary. *)
Definition counted (os : OS) (h : HMONITOR) : bool :=
  match GetMonitorInfo os h with
  | Some mi => Z.land (dwFlags mi) MONITORINFOF_PRIMARY =? 0
  | None => false
  end.

(** Every enumerated display answers [GetMonitorInfo]. *)
Definition displays_answer (os : OS) : Prop :=
  forall h, In h (EnumDisplayMonitors os) -> GetMonitorInfo os h <> None.

(** On one pass: the foreground window is the one examined on the previous
    pass, it is classified fullscreen now, and nothing is tracked once the
    liveness check is done.  This is where the gate makes a difference. *)
Definition gate_hides (os : OS) (lastCheckedWindow : HWND) (g : Globals) : bool :=
  (GetForegroundWindow os =? lastCheckedWindow)
  && (if negb (is_null (g_fullscreenApp g))
         && negb (IsWindow os (g_fullscreenApp g))
      then IsWindowFullscreen os (set_taskbarHwnd (resolve_taskbar os g) g)
             (GetForegroundWindow os)
      else IsWindowFullscreen os g (GetForegroundWindow os)
           && is_null (g_fullscreenApp g)).

(** Along a run of the gated loop, the gate never hides anything. *)
Fixpoint gate_never_hides (ticks : list OS) (lastCheckedWindow : HWND)
    (g : Globals) : bool :=
  match ticks with
  | [] => true
  | os :: rest =>
      if g_running g
      then negb (gate_hides os lastCheckedWindow g)
           && let r := loop_body os lastCheckedWindow g in
              gate_never_hides rest (result_of r) (state_of r)
      else true
  end.

(** The worded liveness property for one pass: it ends idle and has
    requested exactly one redisplay. *)
Definition restores_with_one_redisplay (os : OS) (lastCheckedWindow : HWND)
    (g : Globals) : Prop :=
  let r := loop_body os lastCheckedWindow g in
  g_forceSecondary (state_of r) = false /\
  g_fullscreenApp (state_of r) = nullptr /\
  length (trace_of r) = 1%nat.

(** The worded consistency property for one run of the stuck-monitor hook
    against a transition: the display passed on is the one the hook passes
    on the variables entirely before, or entirely after, the transition. *)
Definition acts_on_a_snapshot (os : OS) (g : Globals)
    (writes : list (Globals -> Globals)) (sched : list Actor)
    (m : HMONITOR) : Prop :=
  let r := interleave sched writes g (SetStuckMonitor_steps os m) in
  r = TrayUI__SetStuckMonitor_Hook os g m \/
  r = TrayUI__SetStuckMonitor_Hook os (apply_writes writes g) m.

(** A handler (or the rest of one) that does not load [g_forceSecondary]. *)
Inductive no_forcing_load : Steps -> Prop :=
| nfl_finish (r : HMONITOR) : no_forcing_load (Finish r)
| nfl_unloading (k : bool -> Steps) :
    (forall b, no_forcing_load (k b)) -> no_forcing_load (Load_unloading k)
| nfl_primary (k : HMONITOR -> Steps) :
    (forall h, no_forcing_load (k h)) -> no_forcing_load (Load_primaryMonitor k)
| nfl_secondary (k : HMONITOR -> Steps) :
    (forall h, no_forcing_load (k h)) ->
    no_forcing_load (Load_secondaryMonitor k).

(** Two states the handlers cannot tell apart: they agree on the four
    variables the handlers load. *)
Definition same_for_handlers (g1 g2 : Globals) : Prop :=
  g_forceSecondary g1 = g_forceSecondary g2 /\
  g_unloading g1 = g_unloading g2 /\
  g_primaryMonitor g1 = g_primaryMonitor g2 /\
  g_secondaryMonitor g1 = g_secondaryMonitor g2.

(** A write of the poll loop: it leaves the shutdown flag and the registry
    alone, and leaves the forcing flag alone or sets it to [c]. *)
Definition transition_write (c : bool) (w : Globals -> Globals) : Prop :=
  forall g,
    g_unloading (w g) = g_unloading g /\
    g_primaryMonitor (w g) = g_primaryMonitor g /\
    g_secondaryMonitor (w g) = g_secondaryMonitor g /\
    (g_forceSecondary (w g) = g_forceSecondary g \/ g_forceSecondary (w g) = c).

(** Further sample states: a 1920x1080 rectangle; forcing with the shutdown
    flag already set ([Wh_ModUninit] sets it before it clears the forcing
    flag); idle with the shutdown flag set. *)
Definition full_rect : RECT := mkRECT 0 0 1920 1080.
Definition forcing_during_shutdown : Globals :=
  set_unloading true (set_forceSecondary true (set_fullscreenApp 100 running0)).
Definition idle_during_shutdown : Globals := set_unloading true running0.

(** The two transitions of the poll loop as changes of the variables, with
    the redisplay request each of them makes. *)
Definition restore_transition (os : OS) (g : Globals)
    : Globals * list Event :=
  (set_taskbarHwnd (resolve_taskbar os g)
     (set_forceSecondary false (set_fullscreenApp nullptr g)),
   [Redisplay (resolve_taskbar os g)]).
Definition entry_transition (os : OS) (hWnd : HWND) (g : Globals)
    : Globals * list Event :=
  (set_taskbarHwnd (resolve_taskbar os g)
     (set_forceSecondary true (set_fullscreenApp hWnd g)),
   [Redisplay (resolve_taskbar os g)]).

(** ** Further properties of the code *)

(** The displays the enumeration callback counts, in enumeration order. *)
Definition counted_displays (os : OS) : list HMONITOR :=
  filter (counted os) (EnumDisplayMonitors os).

(** The tracked window and the forcing flag go together: a window is
    tracked exactly when the flag is set. *)
Definition tracking_consistent (g : Globals) : Prop :=
  g_forceSecondary g = negb (is_null (g_fullscreenApp g)).

(** [g'] differs from [g] at most in the tracked window, the forcing flag
    and the taskbar handle. *)
Definition redirection_only (g g' : Globals) : Prop :=
  g_settings g' = g_settings g /\
  g_initialized g' = g_initialized g /\
  g_unloading g' = g_unloading g /\
  g_primaryMonitor g' = g_primaryMonitor g /\
  g_secondaryMonitor g' = g_secondaryMonitor g /\
  g_monitorThread g' = g_monitorThread g /\
  g_running g' = g_running g.

(** [g'] differs from [g] at most in the settings and the registry. *)
Definition registry_only (g g' : Globals) : Prop :=
  g_initialized g' = g_initialized g /\
  g_unloading g' = g_unloading g /\
  g_forceSecondary g' = g_forceSecondary g /\
  g_taskbarHwnd g' = g_taskbarHwnd g /\
  g_monitorThread g' = g_monitorThread g /\
  g_running g' = g_running g /\
  g_fullscreenApp g' = g_fullscreenApp g.

(** Every event of a trace is a redisplay request to window [h]. *)
Definition all_redisplay (h : HWND) (t : list Event) : Prop :=
  Forall (eq (Redisplay h)) t.

(** What [Wh_ModInit] needs from the system to return TRUE. *)
Definition init_conditions (os : OS) : bool :=
  negb (is_null (MonitorFromPoint_Original os (mkPOINT 0 0)
                   MONITOR_DEFAULTTOPRIMARY))
  && negb (is_null (GetMonitorByIndex os
                      (sub32 (Wh_GetIntSetting_secondaryMonitor os) 1)))
  && HookSymbols_ok os
  && negb (is_null (CreateThread_result os)).

(** A handler run whose first [n] loads see the variables [before] and
    whose later loads see [after]. *)
Fixpoint run_switch (n : nat) (before after : Globals) (p : Steps)
    : HMONITOR :=
  match n with
  | O => run_snapshot after p
  | S n' =>
      match p with
      | Finish r => r
      | _ => run_switch n' before after (load_step before p)
      end
  end.

(** ** Requests and messages *)

(** The windows the message 0x5B8 really went to: a redisplay request sends
    it only when a taskbar window is known or found (line 279), and the
    event of a request that found none carries [nullptr]. *)
Fixpoint messages_sent (t : list Event) : list HWND :=
  match t with
  | [] => []
  | Redisplay h :: rest =>
      if is_null h then messages_sent rest else h :: messages_sent rest
  | ThreadStarted :: rest => messages_sent rest
  end.

(** The worded shutdown property: the shutdown ends idle and exactly one
    redisplay reaches the shell. *)
Definition shutdown_redisplays_once (r : unit * Globals * list Event) : Prop :=
  g_forceSecondary (state_of r) = false /\
  g_fullscreenApp (state_of r) = nullptr /\
  length (messages_sent (trace_of r)) = 1%nat.

(** The display the stuck-monitor hook has chosen after its substitution,
    lines 221-231, before the null check of line 233. *)
Definition SetStuckMonitor_choice (g : Globals) (monitor : HMONITOR)
    : HMONITOR :=
  if negb (g_unloading g) && g_forceSecondary g
     && negb (is_null (g_secondaryMonitor g))
  then g_secondaryMonitor g
  else if negb (g_forceSecondary g) && negb (is_null (g_primaryMonitor g))
  then g_primaryMonitor g
  else monitor.

(** The sample desktop in a process that owns no taskbar window. *)
Definition sample_os_no_taskbar (fg : HWND) (dead : list HWND) : OS :=
  mkOS (fun _ => true) 1 2 (fun _ => WS_VISIBLE)
       (fun _ => Some full_rect)
       (fun pt _ => if pt_x pt <? 1920 then 11
                    else if pt_x pt <? 3840 then 12 else 13)
       (fun h => if h =? 11 then Some primary_info
                 else if h =? 12 then Some second_info
                 else if h =? 13 then Some third_info else None)
       [11; 12; 13] fg
       (fun h => negb (existsb (Z.eqb h) dead))
       nullptr true 77 1 2000 0.

(** * Proofs *)

(** ** Handles and 32-bit arithmetic *)

Lemma is_null_true (h : Z) : is_null h = true <-> h = nullptr.
Proof. unfold is_null. apply Z.eqb_eq. Qed.

Lemma is_null_false (h : Z) : is_null h = false <-> h <> nullptr.
Proof. unfold is_null. apply Z.eqb_neq. Qed.

Lemma wrap32_exact (z : Z) : fits_int z -> wrap32 z = z.
Proof.
  unfold fits_int, INT_MIN, INT_MAX, wrap32. intros H.
  rewrite Z.mod_small; lia.
Qed.

Lemma sub32_exact (a b : Z) : fits_int (a - b) -> sub32 a b = a - b.
Proof. apply wrap32_exact. Qed.

Lemma wrap32_range (z : Z) : fits_int (wrap32 z).
Proof.
  unfold fits_int, INT_MIN, INT_MAX, wrap32.
  pose proof (Z.mod_pos_bound (z + 2 ^ 31) (2 ^ 32) ltac:(lia)). lia.
Qed.

Lemma rect_width_exact (r : RECT) :
  fits_int (rc_right r - rc_left r) -> rect_width r = rc_right r - rc_left r.
Proof. apply sub32_exact. Qed.

Lemma rect_height_exact (r : RECT) :
  fits_int (rc_bottom r - rc_top r) -> rect_height r = rc_bottom r - rc_top r.
Proof. apply sub32_exact. Qed.

(** On rectangles whose sides fit the screen coordinate range the 32-bit
    comparison is the comparison of the exact differences. *)
Lemma covers_exact (area window : RECT) :
  0 <= rc_right area - rc_left area <= 2 ^ 30 ->
  0 <= rc_bottom area - rc_top area <= 2 ^ 30 ->
  fits_int (rc_right window - rc_left window) ->
  fits_int (rc_bottom window - rc_top window) ->
  covers area window <->
  rc_right window - rc_left window >= (rc_right area - rc_left area) - 10 /\
  rc_bottom window - rc_top window >= (rc_bottom area - rc_top area) - 10.
Proof.
  intros Hw Hh Hww Hwh. unfold covers.
  rewrite (rect_width_exact window Hww), (rect_height_exact window Hwh).
  rewrite (rect_width_exact area), (rect_height_exact area)
    by (unfold fits_int, INT_MIN, INT_MAX; lia).
  rewrite !sub32_exact by (unfold fits_int, INT_MIN, INT_MAX; lia).
  reflexivity.
Qed.

(** ** Fullscreen classifier *)

Section Classifier.
Variable os : OS.
Variable g : Globals.

Lemma IsWindowFullscreen_eligible (w : HWND) :
  IsWindowFullscreen os g w = true -> eligible os g w.
Proof.
  unfold IsWindowFullscreen, eligible. intros H.
  destruct (is_null w) eqn:Hn; [discriminate|].
  destruct (IsWindowVisible os w) eqn:Hv; [|discriminate].
  destruct (w =? GetDesktopWindow os) eqn:Hd; [discriminate|].
  destruct (w =? GetShellWindow os) eqn:Hs; [discriminate|].
  destruct (w =? g_taskbarHwnd g) eqn:Ht; [discriminate|].
  destruct (Z.land (GetWindowLong_STYLE os w) WS_VISIBLE =? 0) eqn:Hst;
    [discriminate|].
  apply is_null_false in Hn.
  apply Z.eqb_neq in Hd, Hs, Ht, Hst. tauto.
Qed.

Lemma IsWindowFullscreen_of_eligible (w : HWND) :
  eligible os g w ->
  IsWindowFullscreen os g w =
  match GetWindowRect os w with
  | None => false
  | Some r =>
      if negb (MonitorFromPoint_Original os
                 (mkPOINT (rc_left r) (rc_top r)) MONITOR_DEFAULTTONEAREST
               =? g_primaryMonitor g)
      then false
      else match GetMonitorInfo os
                   (MonitorFromPoint_Original os
                      (mkPOINT (rc_left r) (rc_top r))
                      MONITOR_DEFAULTTONEAREST) with
           | None => false
           | Some mi =>
               (sub32 (rect_width (rcMonitor mi)) 10 <=? rect_width r)
               && (sub32 (rect_height (rcMonitor mi)) 10 <=? rect_height r)
           end
  end.
Proof.
  unfold IsWindowFullscreen, eligible.
  intros (Hn & Hv & Hst & Hd & Hs & Ht).
  apply is_null_false in Hn. apply Z.eqb_neq in Hd, Hs, Ht, Hst.
  rewrite Hn, Hv, Hd, Hs, Ht, Hst. reflexivity.
Qed.

Lemma covers_leb (area window : RECT) :
  (sub32 (rect_width area) 10 <=? rect_width window)
  && (sub32 (rect_height area) 10 <=? rect_height window) = true
  <-> covers area window.
Proof.
  unfold covers. rewrite andb_true_iff, !Z.leb_le. lia.
Qed.

(** C1, as the code has it: a window is classified fullscreen exactly when
    it is eligible, its rectangle can be read, the display nearest its
    top-left corner is the registry's primary display, that display's
    information can be read, and the window is at most 10 pixels short of
    the display rectangle [rcMonitor] in width and in height. *)
Theorem C1_IsWindowFullscreen_iff_covers_display (w : HWND) :
  IsWindowFullscreen os g w = true <-> fullscreen_by_display os g w.
Proof.
  unfold fullscreen_by_display, covers_primary. split.
  - intros H. pose proof (IsWindowFullscreen_eligible w H) as He.
    split; [exact He|].
    rewrite (IsWindowFullscreen_of_eligible w He) in H.
    destruct (GetWindowRect os w) as [r|]; [|discriminate].
    destruct (_ =? g_primaryMonitor g) eqn:Hm; [|discriminate].
    apply Z.eqb_eq in Hm. cbn [negb] in H. rewrite Hm in H.
    destruct (GetMonitorInfo os (g_primaryMonitor g)) as [mi|] eqn:Hmi;
      [|discriminate].
    exists r, mi. repeat split; auto; apply covers_leb in H; apply H.
  - intros (He & r & mi & Hr & Hm & Hmi & Hc).
    rewrite (IsWindowFullscreen_of_eligible w He), Hr, Hm, Z.eqb_refl.
    cbn [negb]. rewrite Hmi. apply covers_leb. exact Hc.
Qed.
End Classifier.

(** C1 as worded fails: a maximised window that fills the work area
    (1920x1040) of a 1920x1080 primary display meets the worded condition
    and is not classified fullscreen. *)
Lemma C1_work_area_counterexample :
  let os := sample_os (mkRECT 0 0 1920 1040) 100 [] 1 in
  fullscreen_by_work_area os running0 100 /\
  IsWindowFullscreen os running0 100 = false /\
  ~ (IsWindowFullscreen os running0 100 = true
     <-> fullscreen_by_work_area os running0 100).
Proof.
  cbv zeta.
  assert (Hs : fullscreen_by_work_area
                 (sample_os (mkRECT 0 0 1920 1040) 100 [] 1) running0 100).
  { split.
    - unfold eligible. cbn. repeat split; discriminate.
    - exists (mkRECT 0 0 1920 1040), primary_info. cbn.
      repeat split; vm_compute; discriminate. }
  assert (Hc : IsWindowFullscreen
                 (sample_os (mkRECT 0 0 1920 1040) 100 [] 1) running0 100
               = false) by (vm_compute; reflexivity).
  split; [exact Hs | split; [exact Hc | ]].
  intros [_ H]. rewrite (H Hs) in Hc. discriminate.
Qed.

Lemma C1_witness :
  IsWindowFullscreen (sample_os (mkRECT 0 0 1912 1078) 100 [] 1) running0 100
    = true
  <-> fullscreen_by_display
        (sample_os (mkRECT 0 0 1912 1078) 100 [] 1) running0 100.
Proof.
  apply (C1_IsWindowFullscreen_iff_covers_display
           (sample_os (mkRECT 0 0 1912 1078) 100 [] 1) running0 100).
Defined.

(** Scenarios of the specification: 1912x1078 on a 1920x1080 primary
    display is within the tolerance, 1900x1060 is not. *)
Example borderless_within_tolerance :
  IsWindowFullscreen (sample_os (mkRECT 0 0 1912 1078) 100 [] 1) running0 100
  = true.
Proof. vm_compute. reflexivity. Qed.

Example window_outside_tolerance :
  IsWindowFullscreen (sample_os (mkRECT 0 0 1900 1060) 100 [] 1) running0 100
  = false.
Proof. vm_compute. reflexivity. Qed.

(** The classifier reads two variables only. *)
Lemma IsWindowFullscreen_reads (os : OS) (g1 g2 : Globals) (w : HWND) :
  g_primaryMonitor g1 = g_primaryMonitor g2 ->
  g_taskbarHwnd g1 = g_taskbarHwnd g2 ->
  IsWindowFullscreen os g1 w = IsWindowFullscreen os g2 w.
Proof.
  intros Hp Ht. unfold IsWindowFullscreen. rewrite Hp, Ht. reflexivity.
Qed.

(** C10: with the answers of the system fixed, the classification of any
    window is the same whatever the value of the forcing flag, since the
    display of the window's corner comes from the unintercepted query; this
    includes windows whose top-left corner is the origin. *)
Theorem C10_classifier_ignores_forcing (os : OS) (g : Globals) (w : HWND)
    (b1 b2 : bool) :
  IsWindowFullscreen os (set_forceSecondary b1 g) w
  = IsWindowFullscreen os (set_forceSecondary b2 g) w.
Proof. apply IsWindowFullscreen_reads; reflexivity. Qed.

(** The intercepted query, by contrast, does depend on the flag at the
    origin: a classifier going through it would be perturbed. *)
Example intercepted_query_depends_on_forcing :
  let os := sample_os full_rect 100 [] 1 in
  MonitorFromPoint_Hook os (set_forceSecondary true running0)
    (mkPOINT 0 0) MONITOR_DEFAULTTONEAREST = 12 /\
  MonitorFromPoint_Hook os (set_forceSecondary false running0)
    (mkPOINT 0 0) MONITOR_DEFAULTTONEAREST = 11 /\
  IsWindowFullscreen os (set_forceSecondary true running0) 100 = true.
Proof. vm_compute. repeat split. Qed.

(** ** The stuck-monitor hook *)

Ltac hook_cases g :=
  destruct (g_forceSecondary g) eqn:?, (g_unloading g) eqn:?;
  destruct (is_null (g_primaryMonitor g)) eqn:?;
  destruct (is_null (g_secondaryMonitor g)) eqn:?;
  cbn [negb andb orb].

(** The hook as a table over the two flags. *)
Lemma TrayUI__SetStuckMonitor_Hook_table (os : OS) (g : Globals) (m : HMONITOR) :
  TrayUI__SetStuckMonitor_Hook os g m =
  match g_forceSecondary g, g_unloading g with
  | false, true => m
  | true, true => origin_fallback os m
  | true, false =>
      if is_null (g_secondaryMonitor g) then origin_fallback os m
      else g_secondaryMonitor g
  | false, false =>
      if is_null (g_primaryMonitor g) then origin_fallback os m
      else g_primaryMonitor g
  end.
Proof.
  unfold TrayUI__SetStuckMonitor_Hook, origin_fallback.
  hook_cases g; try reflexivity.
  all: match goal with H : is_null ?x = false |- context [is_null ?x] =>
         rewrite H end; reflexivity.
Qed.

Lemma SetStuckMonitor_full_table_table (os : OS) (g : Globals) (m : HMONITOR) :
  SetStuckMonitor_full_table os g m =
  match g_forceSecondary g, g_unloading g with
  | true, true => origin_fallback os m
  | true, false =>
      if is_null (g_secondaryMonitor g) then origin_fallback os m
      else g_secondaryMonitor g
  | false, _ =>
      if is_null (g_primaryMonitor g) then origin_fallback os m
      else g_primaryMonitor g
  end.
Proof.
  unfold SetStuckMonitor_full_table, origin_fallback.
  hook_cases g; try reflexivity.
  all: match goal with H : is_null ?x = false |- context [is_null ?x] =>
         rewrite H end; reflexivity.
Qed.

Lemma SetStuckMonitor_idle_cases (os : OS) (g : Globals) (m : HMONITOR) :
  (g_unloading g = true -> g_forceSecondary g = false ->
   TrayUI__SetStuckMonitor_Hook os g m = m) /\
  (g_unloading g = false -> g_forceSecondary g = false ->
   g_primaryMonitor g <> nullptr ->
   TrayUI__SetStuckMonitor_Hook os g m = g_primaryMonitor g).
Proof.
  rewrite TrayUI__SetStuckMonitor_Hook_table.
  split; intros Hu Hf; rewrite Hu, Hf; [reflexivity|].
  intros Hp. apply is_null_false in Hp. rewrite Hp. reflexivity.
Qed.

(** C2, as the code has it: outside shutdown the hook passes the secondary
    display when forcing and one is known, the primary display when idle
    and one is known; during shutdown it never substitutes a registry
    display.  Where it substitutes nothing it passes the supplied display,
    replaced by the display nearest the origin if it is null, except that
    idle during shutdown the supplied display goes through untouched. *)
Theorem C2_stuck_monitor_decision (os : OS) (g : Globals) (m : HMONITOR) :
  (g_unloading g = false -> g_forceSecondary g = true ->
   g_secondaryMonitor g <> nullptr ->
   TrayUI__SetStuckMonitor_Hook os g m = g_secondaryMonitor g) /\
  (g_unloading g = false -> g_forceSecondary g = false ->
   g_primaryMonitor g <> nullptr ->
   TrayUI__SetStuckMonitor_Hook os g m = g_primaryMonitor g) /\
  (g_unloading g = true -> g_forceSecondary g = false ->
   TrayUI__SetStuckMonitor_Hook os g m = m) /\
  (g_unloading g = true -> g_forceSecondary g = true ->
   TrayUI__SetStuckMonitor_Hook os g m = origin_fallback os m) /\
  (g_unloading g = false -> g_forceSecondary g = true ->
   g_secondaryMonitor g = nullptr ->
   TrayUI__SetStuckMonitor_Hook os g m = origin_fallback os m) /\
  (g_unloading g = false -> g_forceSecondary g = false ->
   g_primaryMonitor g = nullptr ->
   TrayUI__SetStuckMonitor_Hook os g m = origin_fallback os m).
Proof.
  rewrite TrayUI__SetStuckMonitor_Hook_table.
  repeat split; intros Hu Hf; rewrite Hu, Hf; try reflexivity; intros Hr.
  - apply is_null_false in Hr. rewrite Hr. reflexivity.
  - apply is_null_false in Hr. rewrite Hr. reflexivity.
  - apply is_null_true in Hr. rewrite Hr. reflexivity.
  - apply is_null_true in Hr. rewrite Hr. reflexivity.
Qed.

(** C2 as worded fails: forcing during shutdown with a null display
    supplied, the hook passes the display nearest the origin (11), which is
    neither the secondary display (12) nor the supplied one. *)
Lemma C2_counterexample :
  let os := sample_os full_rect 100 [] 1 in
  TrayUI__SetStuckMonitor_Hook os forcing_during_shutdown nullptr = 11 /\
  ~ clause_forcing os forcing_during_shutdown nullptr /\
  ~ clause_shutdown os forcing_during_shutdown nullptr.
Proof.
  cbv zeta. split; [vm_compute; reflexivity|]. split.
  - intros H. specialize (H eq_refl). vm_compute in H.
    specialize (H ltac:(discriminate)). discriminate.
  - intros H. specialize (H eq_refl). vm_compute in H. discriminate.
Qed.

(** Of the four worded clauses, the one for the idle state holds as it
    stands; the fall-through clause fails on a null display outside
    shutdown (idle, no primary known). *)
Lemma clause_idle_holds (os : OS) (g : Globals) (m : HMONITOR) :
  clause_idle os g m.
Proof.
  intros Hf Hu Hp.
  exact (proj2 (SetStuckMonitor_idle_cases os g m) Hu Hf Hp).
Qed.

Example clause_otherwise_fails :
  ~ clause_otherwise (sample_os full_rect 100 [] 1)
      (set_primaryMonitor nullptr running0) nullptr.
Proof.
  intros H.
  assert (Hv : TrayUI__SetStuckMonitor_Hook (sample_os full_rect 100 [] 1)
                 (set_primaryMonitor nullptr running0) nullptr = nullptr).
  { apply H; vm_compute; intros Hc; decompose [and] Hc; congruence. }
  vm_compute in Hv. discriminate.
Qed.

Lemma C2_witness :
  let os := sample_os full_rect 100 [] 1 in
  let g := set_forceSecondary true running0 in
  g_unloading g = false /\ g_forceSecondary g = true /\
  g_secondaryMonitor g <> nullptr /\
  TrayUI__SetStuckMonitor_Hook os g 11 = 12.
Proof.
  cbv zeta.
  assert (Hs : g_secondaryMonitor (set_forceSecondary true running0) <> nullptr)
    by (vm_compute; discriminate).
  split; [reflexivity|]. split; [reflexivity|]. split; [exact Hs|].
  exact (proj1 (C2_stuck_monitor_decision (sample_os full_rect 100 [] 1)
                  (set_forceSecondary true running0) 11)
               eq_refl eq_refl Hs).
Defined.

(** C7, as the code has it: the first [if] of the hook matters.  With and
    without it the hook passes the same display whenever it is forcing or
    not shutting down; idle during shutdown the hook passes the supplied
    display untouched, while the table alone would pass the primary display
    if one is known and otherwise the supplied display with the null
    fallback. *)
Theorem C7_short_circuit_effect (os : OS) (g : Globals) (m : HMONITOR) :
  (g_forceSecondary g = true \/ g_unloading g = false ->
   TrayUI__SetStuckMonitor_Hook os g m = SetStuckMonitor_full_table os g m) /\
  (g_forceSecondary g = false -> g_unloading g = true ->
   TrayUI__SetStuckMonitor_Hook os g m = m /\
   SetStuckMonitor_full_table os g m =
     if is_null (g_primaryMonitor g) then origin_fallback os m
     else g_primaryMonitor g).
Proof.
  rewrite TrayUI__SetStuckMonitor_Hook_table, SetStuckMonitor_full_table_table.
  split.
  - intros [Hf | Hu].
    + rewrite Hf. reflexivity.
    + rewrite Hu. destruct (g_forceSecondary g); reflexivity.
  - intros Hf Hu. rewrite Hf, Hu. split; reflexivity.
Qed.

(** C7 as worded fails: idle during shutdown with display 12 supplied, the
    hook passes 12 and the table without the short-circuit passes the
    primary display 11. *)
Lemma C7_counterexample :
  let os := sample_os full_rect 100 [] 1 in
  TrayUI__SetStuckMonitor_Hook os idle_during_shutdown 12 = 12 /\
  SetStuckMonitor_full_table os idle_during_shutdown 12 = 11 /\
  TrayUI__SetStuckMonitor_Hook os idle_during_shutdown 12
  <> SetStuckMonitor_full_table os idle_during_shutdown 12.
Proof. vm_compute. repeat split; discriminate. Qed.

Lemma C7_witness :
  let os := sample_os full_rect 100 [] 1 in
  (g_forceSecondary running0 = true \/ g_unloading running0 = false) /\
  TrayUI__SetStuckMonitor_Hook os running0 12
  = SetStuckMonitor_full_table os running0 12.
Proof.
  cbv zeta.
  assert (Hc : g_forceSecondary running0 = true \/ g_unloading running0 = false)
    by (right; reflexivity).
  split; [exact Hc|].
  exact (proj1 (C7_short_circuit_effect (sample_os full_rect 100 [] 1)
                  running0 12) Hc).
Defined.

(** C8, as the code has it: whenever the hook is forcing or not shutting
    down, it hands the original the display it has chosen, and if that
    choice is null, the display nearest the origin as the unintercepted
    query gives it, so that the original receives a non-null display as
    long as that query answers one; idle during shutdown the supplied
    display goes through as it is, null included. *)
Theorem C8_null_fallback (os : OS) (g : Globals) (m : HMONITOR) :
  (g_forceSecondary g = true \/ g_unloading g = false ->
   TrayUI__SetStuckMonitor_Hook os g m
   = origin_fallback os (SetStuckMonitor_choice g m)) /\
  (g_forceSecondary g = true \/ g_unloading g = false ->
   SetStuckMonitor_choice g m = nullptr ->
   TrayUI__SetStuckMonitor_Hook os g m
   = MonitorFromPoint_Original os (mkPOINT 0 0) MONITOR_DEFAULTTONEAREST) /\
  (g_forceSecondary g = true \/ g_unloading g = false ->
   SetStuckMonitor_choice g m <> nullptr ->
   TrayUI__SetStuckMonitor_Hook os g m = SetStuckMonitor_choice g m) /\
  (g_forceSecondary g = true \/ g_unloading g = false ->
   MonitorFromPoint_Original os (mkPOINT 0 0) MONITOR_DEFAULTTONEAREST
     <> nullptr ->
   TrayUI__SetStuckMonitor_Hook os g m <> nullptr) /\
  (g_forceSecondary g = false -> g_unloading g = true ->
   TrayUI__SetStuckMonitor_Hook os g m = m).
Proof.
  assert (Hval : g_forceSecondary g = true \/ g_unloading g = false ->
                 TrayUI__SetStuckMonitor_Hook os g m
                 = origin_fallback os (SetStuckMonitor_choice g m)).
  { intros Hc.
    unfold TrayUI__SetStuckMonitor_Hook, SetStuckMonitor_choice,
      origin_fallback.
    destruct Hc as [Hf | Hu]; [rewrite Hf | rewrite Hu];
      cbn [negb andb]; rewrite ?andb_false_r; reflexivity. }
  split; [exact Hval|]. split; [|split; [|split]].
  - intros Hc Hn. rewrite (Hval Hc), Hn. reflexivity.
  - intros Hc Hn. rewrite (Hval Hc). unfold origin_fallback.
    apply is_null_false in Hn. rewrite Hn. reflexivity.
  - intros Hc Hq. rewrite (Hval Hc). unfold origin_fallback.
    destruct (is_null (SetStuckMonitor_choice g m)) eqn:Hn; [exact Hq|].
    apply is_null_false. exact Hn.
  - intros Hf Hu. unfold TrayUI__SetStuckMonitor_Hook. rewrite Hf, Hu.
    reflexivity.
Qed.

(** C8 as worded fails: idle during shutdown, a null display supplied is
    handed to the original although the unintercepted query would answer
    display 11. *)
Lemma C8_counterexample :
  let os := sample_os full_rect 100 [] 1 in
  MonitorFromPoint_Original os (mkPOINT 0 0) MONITOR_DEFAULTTONEAREST = 11 /\
  TrayUI__SetStuckMonitor_Hook os idle_during_shutdown nullptr = nullptr.
Proof. vm_compute. split; reflexivity. Qed.

Lemma C8_witness :
  let os := sample_os full_rect 100 [] 1 in
  let g := set_primaryMonitor nullptr running0 in
  (g_forceSecondary g = true \/ g_unloading g = false) /\
  SetStuckMonitor_choice g nullptr = nullptr /\
  TrayUI__SetStuckMonitor_Hook os g nullptr
  = MonitorFromPoint_Original os (mkPOINT 0 0) MONITOR_DEFAULTTONEAREST.
Proof.
  cbv zeta.
  assert (Hc : g_forceSecondary (set_primaryMonitor nullptr running0) = true \/
               g_unloading (set_primaryMonitor nullptr running0) = false)
    by (right; reflexivity).
  assert (Hn : SetStuckMonitor_choice (set_primaryMonitor nullptr running0)
                 nullptr = nullptr)
    by (vm_compute; reflexivity).
  split; [exact Hc|]. split; [exact Hn|].
  exact (proj1 (proj2 (C8_null_fallback (sample_os full_rect 100 [] 1)
                         (set_primaryMonitor nullptr running0) nullptr))
               Hc Hn).
Defined.

(** ** Monitor registry *)

Section Registry.
Variable os : OS.

(** The enumeration stops at entry [index] of the displays it counts. *)
Lemma monitorEnum_nth_counted (index : Z) (mons : list HMONITOR) :
  forall c, 0 <= c <= index -> index <= INT_MAX ->
  monitorEnum os index mons c
  = nth (Z.to_nat (index - c)) (filter (counted os) mons) nullptr.
Proof.
  induction mons as [|h rest IH]; intros c Hc Hmax.
  - cbn. destruct (Z.to_nat (index - c)); reflexivity.
  - cbn [monitorEnum filter]. unfold counted at 1.
    destruct (GetMonitorInfo os h) as [mi|] eqn:Hmi.
    + destruct (Z.land (dwFlags mi) MONITORINFOF_PRIMARY =? 0).
      * cbn [negb nth]. destruct (c =? index) eqn:Hci.
        -- apply Z.eqb_eq in Hci. subst c. rewrite Z.sub_diag. reflexivity.
        -- apply Z.eqb_neq in Hci.
           assert (Hadd : add32 c 1 = c + 1).
           { apply wrap32_exact. unfold fits_int, INT_MIN, INT_MAX in *. lia. }
           rewrite Hadd, IH by (try assumption; lia).
           replace (Z.to_nat (index - c))
             with (S (Z.to_nat (index - (c + 1)))) by lia.
           reflexivity.
      * cbn [negb]. apply IH; assumption.
    + apply IH; assumption.
Qed.

(** When every display answers, the counted displays are the displays that
    are not primary. *)
Lemma counted_non_primary (mons : list HMONITOR) :
  (forall h, In h mons -> GetMonitorInfo os h <> None) ->
  filter (counted os) mons = filter (fun h => negb (is_primary os h)) mons.
Proof.
  intros Hall. apply filter_ext_in. intros h Hin.
  unfold counted, is_primary.
  destruct (GetMonitorInfo os h) eqn:Hmi.
  - rewrite negb_involutive. reflexivity.
  - exfalso. apply (Hall h Hin Hmi).
Qed.

Lemma monitorEnum_nth (index : Z) (mons : list HMONITOR) :
  (forall h, In h mons -> GetMonitorInfo os h <> None) ->
  forall c, 0 <= c <= index -> index <= INT_MAX ->
  monitorEnum os index mons c
  = nth (Z.to_nat (index - c))
        (filter (fun h => negb (is_primary os h)) mons) nullptr.
Proof.
  intros Hall c Hc Hmax.
  rewrite monitorEnum_nth_counted, counted_non_primary by assumption.
  reflexivity.
Qed.

Lemma GetMonitorByIndex_nth (n : Z) :
  1 <= n <= INT_MAX -> displays_answer os ->
  GetMonitorByIndex os (sub32 n 1)
  = nth (Z.to_nat (n - 1)) (non_primary os) nullptr.
Proof.
  intros Hn Ha. unfold GetMonitorByIndex, non_primary.
  rewrite sub32_exact
    by (unfold fits_int, INT_MIN, INT_MAX in *; lia).
  rewrite (monitorEnum_nth (n - 1) _ Ha 0) by lia.
  rewrite Z.sub_0_r. reflexivity.
Qed.

Lemma Wh_ModInit_secondary (g : Globals) :
  g_secondaryMonitor (state_of (Wh_ModInit os g))
  = GetMonitorByIndex os (sub32 (Wh_GetIntSetting_secondaryMonitor os) 1).
Proof.
  unfold Wh_ModInit, LoadSettings, RefreshMonitors, state_of,
    bind, modify, get, ret, emit. cbn.
  destruct (is_null _ || is_null _); [reflexivity|].
  destruct (negb (HookSymbols_ok os)); [reflexivity|]. cbn.
  destruct (is_null (CreateThread_result os)); reflexivity.
Qed.

Lemma Wh_ModSettingsChanged_secondary (g : Globals) :
  g_secondaryMonitor (state_of (Wh_ModSettingsChanged os g))
  = GetMonitorByIndex os (sub32 (Wh_GetIntSetting_secondaryMonitor os) 1).
Proof. reflexivity. Qed.

Lemma Wh_ModInit_without_secondary (g : Globals) :
  GetMonitorByIndex os (sub32 (Wh_GetIntSetting_secondaryMonitor os) 1)
    = nullptr ->
  result_of (Wh_ModInit os g) = false /\
  trace_of (Wh_ModInit os g) = [] /\
  g_monitorThread (state_of (Wh_ModInit os g)) = g_monitorThread g /\
  g_running (state_of (Wh_ModInit os g)) = g_running g.
Proof.
  intros Hs.
  unfold Wh_ModInit, LoadSettings, RefreshMonitors, state_of, result_of,
    trace_of, bind, modify, get, ret, emit. cbn.
  rewrite Hs. cbn. rewrite orb_true_r. cbn. repeat split.
Qed.

(** C5: for a configured index [n >= 1] the refresh (on its own, in
    [Wh_ModInit] and in [Wh_ModSettingsChanged]) sets the secondary display
    to entry [n-1] (counting from 0) of the enumerated displays with the
    primary filtered out, in enumeration order; when fewer than [n] such
    displays exist the secondary is empty, and initialisation returns
    failure without having started the poll thread. *)
Theorem C5_secondary_is_nth_non_primary (n : Z) :
  1 <= n <= INT_MAX -> displays_answer os ->
  (forall MonitorFromPoint g,
     secondaryMonitor (g_settings g) = n ->
     g_secondaryMonitor (RefreshMonitors MonitorFromPoint os g)
     = nth (Z.to_nat (n - 1)) (non_primary os) nullptr) /\
  (Wh_GetIntSetting_secondaryMonitor os = n ->
   forall g,
     g_secondaryMonitor (state_of (Wh_ModInit os g))
     = nth (Z.to_nat (n - 1)) (non_primary os) nullptr) /\
  (Z.of_nat (length (non_primary os)) < n ->
   nth (Z.to_nat (n - 1)) (non_primary os) nullptr = nullptr /\
   (Wh_GetIntSetting_secondaryMonitor os = n ->
    forall g,
      result_of (Wh_ModInit os g) = false /\
      trace_of (Wh_ModInit os g) = [] /\
      g_monitorThread (state_of (Wh_ModInit os g)) = g_monitorThread g /\
      g_running (state_of (Wh_ModInit os g)) = g_running g)).
Proof.
  intros Hn Ha.
  assert (Hshort : Z.of_nat (length (non_primary os)) < n ->
                   nth (Z.to_nat (n - 1)) (non_primary os) nullptr = nullptr)
    by (intros Hlen; apply nth_overflow; lia).
  split; [|split].
  - intros mfp g Hg. unfold RefreshMonitors. cbn. rewrite Hg.
    apply GetMonitorByIndex_nth; assumption.
  - intros Hw g. rewrite Wh_ModInit_secondary, Hw.
    apply GetMonitorByIndex_nth; assumption.
  - intros Hlen. split; [auto|].
    intros Hw g. apply Wh_ModInit_without_secondary.
    rewrite Hw, GetMonitorByIndex_nth by assumption. auto.
Qed.
End Registry.

(** The primary display of the registry is what [MonitorFromPoint] answers
    at the origin when the refresh runs; on a settings change while forcing
    that call is the intercepted one and answers the secondary display. *)
Example settings_change_while_forcing :
  let os := sample_os full_rect 100 [] 1 in
  let g := set_forceSecondary true (set_fullscreenApp 100 running0) in
  g_primaryMonitor (state_of (Wh_ModSettingsChanged os g)) = 12 /\
  g_secondaryMonitor (state_of (Wh_ModSettingsChanged os g)) = 12.
Proof. vm_compute. split; reflexivity. Qed.

(** The example of the specification: displays [11 (primary); 12; 13]. *)
Example secondary_of_three_displays :
  (let os := sample_os (mkRECT 0 0 1 1) 0 [] 1 in
   g_secondaryMonitor (state_of (Wh_ModInit os globals0)) = 12 /\
   result_of (Wh_ModInit os globals0) = true) /\
  (let os := sample_os (mkRECT 0 0 1 1) 0 [] 2 in
   g_secondaryMonitor (state_of (Wh_ModInit os globals0)) = 13 /\
   result_of (Wh_ModInit os globals0) = true) /\
  (let os := sample_os (mkRECT 0 0 1 1) 0 [] 5 in
   g_secondaryMonitor (state_of (Wh_ModInit os globals0)) = nullptr /\
   result_of (Wh_ModInit os globals0) = false).
Proof. vm_compute. repeat split. Qed.

Lemma C5_witness :
  let os := sample_os (mkRECT 0 0 1 1) 0 [] 5 in
  1 <= 5 <= INT_MAX /\
  displays_answer os /\
  Z.of_nat (length (non_primary os)) < 5 /\
  result_of (Wh_ModInit os globals0) = false /\
  trace_of (Wh_ModInit os globals0) = [] /\
  g_monitorThread (state_of (Wh_ModInit os globals0))
    = g_monitorThread globals0 /\
  g_running (state_of (Wh_ModInit os globals0)) = g_running globals0.
Proof.
  cbv zeta.
  assert (Hn : 1 <= 5 <= INT_MAX) by (unfold INT_MAX; lia).
  assert (Ha : displays_answer (sample_os (mkRECT 0 0 1 1) 0 [] 5))
    by (intros h [<- | [<- | [<- | []]]]; cbn; discriminate).
  assert (Hlen : Z.of_nat (length (non_primary
                    (sample_os (mkRECT 0 0 1 1) 0 [] 5))) < 5)
    by (vm_compute; reflexivity).
  split; [exact Hn|]. split; [exact Ha|]. split; [exact Hlen|].
  exact (proj2 (proj2 (proj2 (C5_secondary_is_nth_non_primary
                                (sample_os (mkRECT 0 0 1 1) 0 [] 5) 5 Hn Ha))
                      Hlen)
               eq_refl globals0).
Defined.

(** ** Poll loop and shutdown *)

Lemma ApplyTaskbarSettings_run (os : OS) (g : Globals) :
  ApplyTaskbarSettings os g
  = (tt, set_taskbarHwnd (resolve_taskbar os g) g,
     [Redisplay (resolve_taskbar os g)]).
Proof.
  unfold ApplyTaskbarSettings, resolve_taskbar, bind, get, modify, ret, emit.
  destruct g as [s i u f p sec t th r a]. cbn.
  destruct (is_null t); reflexivity.
Qed.

Lemma resolve_taskbar_again (os : OS) (g g' : Globals) :
  g_taskbarHwnd g' = resolve_taskbar os g ->
  resolve_taskbar os g' = resolve_taskbar os g.
Proof.
  intros Hf. unfold resolve_taskbar at 1. rewrite Hf.
  unfold resolve_taskbar. destruct (is_null (g_taskbarHwnd g)) eqn:Ht.
  - destruct (is_null (FindTaskbarInProcess os)); reflexivity.
  - rewrite Ht. reflexivity.
Qed.

(** The pass that finds the tracked window gone, step by step. *)
Lemma loop_body_tracked_gone (os : OS) (last : HWND) (g : Globals) :
  tracked_gone os g ->
  let h := resolve_taskbar os g in
  let restored :=
    set_taskbarHwnd h (set_forceSecondary false (set_fullscreenApp nullptr g)) in
  loop_body os last g =
  if reenters os last g
  then (GetForegroundWindow os,
        set_taskbarHwnd h
          (set_forceSecondary true
             (set_fullscreenApp (GetForegroundWindow os) restored)),
        [Redisplay h; Redisplay h])
  else (GetForegroundWindow os, restored, [Redisplay h]).
Proof.
  intros [Ha Hw]. cbv zeta. apply is_null_false in Ha.
  unfold loop_body, reenters.
  unfold bind at 1. unfold get at 1. cbv beta iota.
  rewrite Ha, Hw. cbn [negb andb].
  unfold bind, modify, get, ret. rewrite !ApplyTaskbarSettings_run.
  cbv beta iota.
  change (resolve_taskbar os (set_forceSecondary false (set_fullscreenApp nullptr g)))
    with (resolve_taskbar os g).
  destruct (negb (GetForegroundWindow os =? last)); cbn [andb app].
  - rewrite (IsWindowFullscreen_reads os
               (set_taskbarHwnd (resolve_taskbar os g)
                  (set_forceSecondary false (set_fullscreenApp nullptr g)))
               (set_taskbarHwnd (resolve_taskbar os g) g))
      by reflexivity.
    destruct (IsWindowFullscreen os _ (GetForegroundWindow os)).
    + cbn [andb g_fullscreenApp set_taskbarHwnd set_forceSecondary
             set_fullscreenApp].
      change (is_null nullptr) with true. cbv beta iota.
      rewrite ApplyTaskbarSettings_run. cbn [app].
      rewrite (resolve_taskbar_again os g) by reflexivity.
      reflexivity.
    + reflexivity.
  - reflexivity.
Qed.

(** C3, as the code has it: on the pass that finds the tracked window gone
    the loop first returns to idle and requests one redisplay; the pass
    ends idle with exactly that one request unless the foreground window
    differs from the one examined on the previous pass and is classified
    fullscreen, in which case the same pass starts forcing for that window
    and requests a second redisplay. *)
Theorem C3_liveness_restoration (os : OS) (last : HWND) (g : Globals) :
  tracked_gone os g ->
  let r := loop_body os last g in
  (reenters os last g = false ->
   g_forceSecondary (state_of r) = false /\
   g_fullscreenApp (state_of r) = nullptr /\
   trace_of r = [Redisplay (resolve_taskbar os g)]) /\
  (reenters os last g = true ->
   g_forceSecondary (state_of r) = true /\
   g_fullscreenApp (state_of r) = GetForegroundWindow os /\
   trace_of r = [Redisplay (resolve_taskbar os g);
                 Redisplay (resolve_taskbar os g)]).
Proof.
  intros Hgone. cbv zeta.
  rewrite (loop_body_tracked_gone os last g Hgone).
  split; intros Hre; rewrite Hre; repeat split.
Qed.

Lemma poll_loop_not_running (body : OS -> HWND -> M HWND) (ticks : list OS)
    (last : HWND) (g : Globals) :
  g_running g = false -> poll_loop body ticks last g = (last, g, []).
Proof.
  intros Hr. destruct ticks as [|os rest]; [reflexivity|].
  cbn [poll_loop]. unfold bind, get. rewrite Hr. reflexivity.
Qed.

Lemma poll_loop_then_ret_not_running (body : OS -> HWND -> M HWND)
    (ticks : list OS) (last : HWND) (g : Globals) :
  g_running g = false ->
  (poll_loop body ticks last ;; ret tt) g = (tt, g, []).
Proof.
  intros Hr. unfold bind. rewrite poll_loop_not_running by exact Hr.
  reflexivity.
Qed.

Lemma messages_sent_app (t1 t2 : list Event) :
  messages_sent (t1 ++ t2) = messages_sent t1 ++ messages_sent t2.
Proof.
  induction t1 as [|e t1 IH]; [reflexivity|].
  destruct e as [h|]; cbn [app messages_sent]; [|exact IH].
  destruct (is_null h); rewrite IH; reflexivity.
Qed.

(** C4, as the code has it: whatever the state before and whatever the
    poll thread still does during the wait, [Wh_ModUninit] ends idle (not
    forcing, nothing tracked), and its one redisplay request comes last,
    after the stop flag is set and after everything the poll thread did;
    a poll loop that reads the stop flag runs no further pass, so that then
    the request is the only event.  The request sends the redisplay
    message to the taskbar window when one is known or found, and sends
    nothing when there is none. *)
Theorem C4_shutdown_ends_idle (os : OS) (thread_rest : M unit) (g : Globals) :
  let stopped := set_running false (set_unloading true g) in
  let waited :=
    if is_null (g_monitorThread g) then (tt, stopped, [])
    else thread_rest stopped in
  let r := Wh_ModUninit os thread_rest g in
  g_forceSecondary (state_of r) = false /\
  g_fullscreenApp (state_of r) = nullptr /\
  trace_of r
  = trace_of waited ++ [Redisplay (resolve_taskbar os (state_of waited))] /\
  messages_sent (trace_of r)
  = messages_sent (trace_of waited)
    ++ (if is_null (resolve_taskbar os (state_of waited)) then []
        else [resolve_taskbar os (state_of waited)]) /\
  (forall ticks last,
     let r' := Wh_ModUninit os (poll_loop loop_body ticks last ;; ret tt) g in
     trace_of r' = [Redisplay (resolve_taskbar os g)] /\
     messages_sent (trace_of r')
     = (if is_null (resolve_taskbar os g) then []
        else [resolve_taskbar os g]) /\
     g_running (state_of r') = false /\
     g_forceSecondary (state_of r') = false /\
     g_fullscreenApp (state_of r') = nullptr).
Proof.
  cbv zeta.
  assert (Hgen : forall rest : M unit,
    Wh_ModUninit os rest g =
    let waited :=
      if is_null (g_monitorThread g)
      then (tt, set_running false (set_unloading true g), [])
      else rest (set_running false (set_unloading true g)) in
    (tt,
     set_taskbarHwnd (resolve_taskbar os (state_of waited))
       (set_forceSecondary false (set_fullscreenApp nullptr (state_of waited))),
     trace_of waited ++ [Redisplay (resolve_taskbar os (state_of waited))])).
  { intros rest. unfold Wh_ModUninit, bind, modify, get, ret.
    cbn [g_monitorThread set_running set_unloading].
    destruct (is_null (g_monitorThread g)); cbn [negb].
    - rewrite ApplyTaskbarSettings_run. reflexivity.
    - destruct (rest _) as [[[] g1] t1].
      rewrite ApplyTaskbarSettings_run. reflexivity. }
  assert (Hone : forall h,
            messages_sent [Redisplay h] = if is_null h then [] else [h])
    by (intros h; cbn; destruct (is_null h); reflexivity).
  split; [|split; [|split; [|split]]].
  - rewrite Hgen. reflexivity.
  - rewrite Hgen. reflexivity.
  - rewrite Hgen. reflexivity.
  - rewrite Hgen. cbv zeta. unfold trace_of at 1. cbn [snd].
    rewrite messages_sent_app, Hone. reflexivity.
  - intros ticks last. rewrite Hgen. cbv zeta.
    rewrite poll_loop_then_ret_not_running by reflexivity.
    destruct (is_null (g_monitorThread g));
      (split; [reflexivity|]); (split; [apply Hone|]); repeat split.
Qed.

(** C4 as worded fails: in a process that owns no taskbar window
    [Wh_ModInit] succeeds (the missing window is only logged), a pass
    starts forcing for the fullscreen window 100, and the shutdown then
    ends idle with its one request finding no window: no redisplay message
    is sent at all. *)
Lemma C4_counterexample :
  let os := sample_os_no_taskbar 100 [] in
  result_of (Wh_ModInit os globals0) = true /\
  let g1 := state_of (Wh_ModInit os globals0) in
  let g2 := state_of (poll_loop loop_body [os] nullptr g1) in
  g_forceSecondary g2 = true /\ g_fullscreenApp g2 = 100 /\
  let r := Wh_ModUninit os (poll_loop loop_body [os] 100 ;; ret tt) g2 in
  g_forceSecondary (state_of r) = false /\
  g_fullscreenApp (state_of r) = nullptr /\
  trace_of r = [Redisplay nullptr] /\
  messages_sent (trace_of r) = [] /\
  ~ shutdown_redisplays_once r.
Proof.
  cbv zeta. repeat (split; [vm_compute; reflexivity|]).
  intros (_ & _ & H). vm_compute in H. discriminate.
Qed.

(** C3 as worded fails, on a state the loop reaches: after a start with
    displays 11 and 12, a first pass sees window 100 fullscreen in front
    and tracks it; on the second pass 100 is gone and the fullscreen window
    200 is in front.  That pass ends forcing for 200, with two redisplay
    requests. *)
Lemma C3_counterexample :
  let pass1 := sample_os full_rect 100 [] 1 in
  let pass2 := sample_os full_rect 200 [100] 1 in
  state_of (Wh_ModInit pass1 globals0) = running0 /\
  let r1 := poll_loop loop_body [pass1] nullptr running0 in
  tracked_gone pass2 (state_of r1) /\
  let r2 := loop_body pass2 (result_of r1) (state_of r1) in
  g_forceSecondary (state_of r2) = true /\
  g_fullscreenApp (state_of r2) = 200 /\
  trace_of r2 = [Redisplay 3; Redisplay 3] /\
  ~ restores_with_one_redisplay pass2 (result_of r1) (state_of r1).
Proof.
  cbv zeta. split; [vm_compute; reflexivity|].
  split; [split; vm_compute; [discriminate | reflexivity]|].
  split; [vm_compute; reflexivity|].
  split; [vm_compute; reflexivity|].
  split; [vm_compute; reflexivity|].
  intros (H & _). vm_compute in H. discriminate.
Qed.

Lemma C3_witness :
  let os := sample_os full_rect 100 [100] 1 in
  let g := set_forceSecondary true (set_fullscreenApp 100 running0) in
  tracked_gone os g /\
  reenters os 100 g = false /\
  g_forceSecondary (state_of (loop_body os 100 g)) = false /\
  g_fullscreenApp (state_of (loop_body os 100 g)) = nullptr /\
  trace_of (loop_body os 100 g) = [Redisplay 3].
Proof.
  cbv zeta.
  assert (Hgone : tracked_gone (sample_os full_rect 100 [100] 1)
                    (set_forceSecondary true (set_fullscreenApp 100 running0)))
    by (split; vm_compute; [discriminate | reflexivity]).
  assert (Hre : reenters (sample_os full_rect 100 [100] 1) 100
                  (set_forceSecondary true (set_fullscreenApp 100 running0))
                = false)
    by (vm_compute; reflexivity).
  split; [exact Hgone|]. split; [exact Hre|].
  exact (proj1 (C3_liveness_restoration _ _ _ Hgone) Hre).
Defined.

(** *** The change-detection gate *)

(** C6 fails on the code: the gate changes the outcome.  First run: window
    100 stays in front and turns fullscreen between two passes; the gated
    loop never examines it again and stays idle, the loop that examines
    every pass starts forcing.  Second run, with the classification of each
    window fixed: 100 is tracked, the fullscreen window 200 comes to the
    front and is examined while 100 is alive, then 100 goes away; the gated
    loop ends idle, the other one ends forcing for 200 with one more
    redisplay request. *)
Theorem C6_gate_changes_outcome :
  (let ticks := [sample_os (mkRECT 0 0 800 600) 100 [] 1;
                 sample_os full_rect 100 [] 1] in
   let gated := poll_loop loop_body ticks nullptr running0 in
   let every := poll_loop loop_body_every_tick ticks nullptr running0 in
   g_forceSecondary (state_of gated) = false /\
   g_fullscreenApp (state_of gated) = nullptr /\
   trace_of gated = [] /\
   g_forceSecondary (state_of every) = true /\
   g_fullscreenApp (state_of every) = 100 /\
   trace_of every = [Redisplay 3]) /\
  (let ticks := [sample_os full_rect 100 [] 1;
                 sample_os full_rect 200 [] 1;
                 sample_os full_rect 200 [100] 1] in
   let gated := poll_loop loop_body ticks nullptr running0 in
   let every := poll_loop loop_body_every_tick ticks nullptr running0 in
   g_forceSecondary (state_of gated) = false /\
   g_fullscreenApp (state_of gated) = nullptr /\
   trace_of gated = [Redisplay 3; Redisplay 3] /\
   g_forceSecondary (state_of every) = true /\
   g_fullscreenApp (state_of every) = 200 /\
   trace_of every = [Redisplay 3; Redisplay 3; Redisplay 3]).
Proof. vm_compute. repeat split. Qed.

(** [resolve_taskbar] reads the taskbar variable only. *)
Ltac norm_taskbar :=
  repeat first
    [ progress change (resolve_taskbar ?o (set_forceSecondary ?b ?x))
        with (resolve_taskbar o x)
    | progress change (resolve_taskbar ?o (set_fullscreenApp ?b ?x))
        with (resolve_taskbar o x) ].

(** One pass of either loop in closed form: the liveness check, then the
    entry check, which the gated loop makes only for a new foreground
    window. *)
Lemma loop_body_unfold (os : OS) (last : HWND) (g : Globals) :
  loop_body os last g =
  let hWnd := GetForegroundWindow os in
  let '(g1, t1) :=
    if negb (is_null (g_fullscreenApp g))
       && negb (IsWindow os (g_fullscreenApp g))
    then restore_transition os g else (g, []) in
  let '(g2, t2) :=
    if negb (hWnd =? last)
       && (IsWindowFullscreen os g1 hWnd && is_null (g_fullscreenApp g1))
    then entry_transition os hWnd g1 else (g1, []) in
  (hWnd, g2, t1 ++ t2).
Proof.
  unfold loop_body, restore_transition, entry_transition,
    bind, get, modify, ret.
  cbv beta iota zeta.
  destruct (negb (is_null (g_fullscreenApp g))
            && negb (IsWindow os (g_fullscreenApp g)));
    cbv beta iota; rewrite ?ApplyTaskbarSettings_run; cbv beta iota;
    (destruct (negb (GetForegroundWindow os =? last));
     cbn [andb]; cbv beta iota; [|reflexivity]);
    norm_taskbar;
    match goal with
    | |- context [IsWindowFullscreen os ?s ?w && is_null ?a] =>
        destruct (IsWindowFullscreen os s w && is_null a)
    end;
    cbv beta iota; rewrite ?ApplyTaskbarSettings_run; reflexivity.
Qed.

Lemma loop_body_every_tick_unfold (os : OS) (last : HWND) (g : Globals) :
  loop_body_every_tick os last g =
  let hWnd := GetForegroundWindow os in
  let '(g1, t1) :=
    if negb (is_null (g_fullscreenApp g))
       && negb (IsWindow os (g_fullscreenApp g))
    then restore_transition os g else (g, []) in
  let '(g2, t2) :=
    if IsWindowFullscreen os g1 hWnd && is_null (g_fullscreenApp g1)
    then entry_transition os hWnd g1 else (g1, []) in
  (hWnd, g2, t1 ++ t2).
Proof.
  unfold loop_body_every_tick, restore_transition, entry_transition,
    bind, get, modify, ret.
  cbv beta iota zeta.
  destruct (negb (is_null (g_fullscreenApp g))
            && negb (IsWindow os (g_fullscreenApp g)));
    cbv beta iota; rewrite ?ApplyTaskbarSettings_run; cbv beta iota;
    norm_taskbar;
    match goal with
    | |- context [IsWindowFullscreen os ?s ?w && is_null ?a] =>
        destruct (IsWindowFullscreen os s w && is_null a)
    end;
    cbv beta iota; rewrite ?ApplyTaskbarSettings_run; reflexivity.
Qed.

(** Where the gate is harmless: a pass on which it hides nothing. *)
Lemma loop_body_gate_agree (os : OS) (last : HWND) (g : Globals) :
  gate_hides os last g = false ->
  loop_body os last g = loop_body_every_tick os last g.
Proof.
  rewrite loop_body_unfold, loop_body_every_tick_unfold.
  unfold gate_hides, restore_transition. cbv zeta. intros Hh.
  destruct (GetForegroundWindow os =? last) eqn:Hfg; cbn [negb andb] in *;
    [|reflexivity].
  destruct (negb (is_null (g_fullscreenApp g))
            && negb (IsWindow os (g_fullscreenApp g))).
  - rewrite (IsWindowFullscreen_reads os
               (set_taskbarHwnd (resolve_taskbar os g)
                  (set_forceSecondary false (set_fullscreenApp nullptr g)))
               (set_taskbarHwnd (resolve_taskbar os g) g))
      by reflexivity.
    rewrite Hh. reflexivity.
  - rewrite Hh. reflexivity.
Qed.

Lemma poll_loop_gate_agree (ticks : list OS) :
  forall last g,
    gate_never_hides ticks last g = true ->
    poll_loop loop_body ticks last g
    = poll_loop loop_body_every_tick ticks last g.
Proof.
  induction ticks as [|os rest IH]; intros last g Hn; [reflexivity|].
  cbn [poll_loop gate_never_hides] in *. unfold bind at 1 3, get.
  cbv beta iota. destruct (g_running g); [|reflexivity].
  apply andb_true_iff in Hn. destruct Hn as [Hh Hrest].
  apply negb_true_iff in Hh.
  unfold bind. rewrite <- (loop_body_gate_agree os last g Hh).
  unfold result_of, state_of in Hrest.
  destruct (loop_body os last g) as [[last' g'] t']. cbn [fst snd] in Hrest.
  rewrite (IH last' g' Hrest). reflexivity.
Qed.

(** ** The handlers against a transition in progress *)

(** The load-by-load form of each handler, run on one snapshot, is the
    handler. *)
Lemma SetStuckMonitor_steps_snapshot (os : OS) (g : Globals) (m : HMONITOR) :
  run_snapshot g (SetStuckMonitor_steps os m)
  = TrayUI__SetStuckMonitor_Hook os g m.
Proof.
  unfold SetStuckMonitor_steps, SetStuckMonitor_decide,
    SetStuckMonitor_else_if, SetStuckMonitor_finish,
    TrayUI__SetStuckMonitor_Hook.
  destruct g as [s i u f p sec t th r a].
  destruct f, u, (is_null sec) eqn:Hs, (is_null p) eqn:Hp;
    repeat (progress (cbn [run_snapshot negb andb g_forceSecondary
                             g_unloading g_primaryMonitor g_secondaryMonitor];
                      rewrite ?Hs, ?Hp));
    reflexivity.
Qed.

Lemma MonitorFromPoint_steps_snapshot (os : OS) (g : Globals) (pt : POINT)
    (flags : Z) :
  run_snapshot g (MonitorFromPoint_steps os pt flags)
  = MonitorFromPoint_Hook os g pt flags.
Proof.
  unfold MonitorFromPoint_steps, MonitorFromPoint_Hook.
  destruct g as [s i u f p sec t th r a].
  cbn [g_forceSecondary g_secondaryMonitor].
  destruct ((pt_x pt =? 0) && (pt_y pt =? 0)); cbn [andb run_snapshot];
    [|reflexivity].
  cbn [g_forceSecondary g_secondaryMonitor].
  destruct f; cbn [andb run_snapshot]; [|reflexivity].
  cbn [g_secondaryMonitor].
  destruct (is_null sec); reflexivity.
Qed.

(** A run on one snapshot depends on the four loaded variables only. *)
Lemma run_snapshot_ext (p : Steps) :
  forall g1 g2, same_for_handlers g1 g2 -> run_snapshot g1 p = run_snapshot g2 p.
Proof.
  induction p as [k IH|k IH|k IH|k IH|r];
    intros g1 g2 (Hf & Hu & Hp & Hs); cbn [run_snapshot];
    rewrite ?Hf, ?Hu, ?Hp, ?Hs; try reflexivity;
    apply IH; repeat split; assumption.
Qed.

Lemma same_for_handlers_set_force (g : Globals) :
  same_for_handlers (set_forceSecondary (g_forceSecondary g) g) g.
Proof. repeat split. Qed.

(** If every load of the forcing flag returned [v], the run is the run on
    the snapshot in which the flag is [v]. *)
Lemma run_snapshot_forcing_const (p : Steps) :
  forall g v,
    Forall (eq v) (forcing_loads_snapshot g p) ->
    run_snapshot g p = run_snapshot (set_forceSecondary v g) p.
Proof.
  induction p as [k IH|k IH|k IH|k IH|r]; intros g v Hall;
    cbn [run_snapshot forcing_loads_snapshot] in *;
    try (apply IH; exact Hall); try reflexivity.
  inversion Hall as [|b l Hb Hl]; subst.
  cbn [g_forceSecondary set_forceSecondary]. apply IH. exact Hl.
Qed.

Lemma interleave_forcing_const (c : bool) (sched : list Actor) :
  forall writes g p v,
    Forall (transition_write c) writes ->
    Forall (eq v) (forcing_loads sched writes g p) ->
    interleave sched writes g p = run_snapshot (set_forceSecondary v g) p.
Proof.
  induction sched as [|a sched IH]; intros writes g p v Hw Hall.
  - cbn [interleave forcing_loads] in *.
    apply run_snapshot_forcing_const. exact Hall.
  - destruct a; cbn [interleave forcing_loads] in *.
    + destruct writes as [|w writes].
      * apply IH; assumption.
      * inversion Hw as [|w' ws' Hw1 Hw2]; subst.
        rewrite (IH writes (w g) p v Hw2 Hall).
        apply run_snapshot_ext.
        destruct (Hw1 g) as (Hu & Hp & Hs & _).
        repeat split; assumption.
    + destruct p as [k|k|k|k|r]; cbn [load_step run_snapshot] in *;
        try (rewrite (IH _ _ _ v Hw Hall); reflexivity); [|reflexivity].
      inversion Hall as [|b l Hb Hl]; subst.
      rewrite (IH _ _ _ _ Hw Hl). reflexivity.
Qed.

(** Every load of the forcing flag returns its value before the transition
    or the value the transition writes: no other value is ever seen. *)
Lemma forcing_loads_snapshot_values (p : Steps) :
  forall g, Forall (eq (g_forceSecondary g)) (forcing_loads_snapshot g p).
Proof.
  induction p as [k IH|k IH|k IH|k IH|r]; intros g;
    cbn [forcing_loads_snapshot]; auto.
Qed.

Lemma forcing_loads_values (c : bool) (sched : list Actor) :
  forall writes g p,
    Forall (transition_write c) writes ->
    Forall (fun b => b = g_forceSecondary g \/ b = c)
      (forcing_loads sched writes g p).
Proof.
  induction sched as [|a sched IH]; intros writes g p Hw.
  - cbn [forcing_loads].
    eapply Forall_impl; [|apply forcing_loads_snapshot_values].
    intros b Hb. left. symmetry. exact Hb.
  - destruct a; cbn [forcing_loads].
    + destruct writes as [|w writes]; [apply IH; exact Hw|].
      inversion Hw as [|w' ws' Hw1 Hw2]; subst.
      eapply Forall_impl; [|apply (IH writes (w g) p Hw2)].
      intros b [Hb | Hb]; [|right; exact Hb].
      destruct (Hw1 g) as (_ & _ & _ & [Hf | Hf]); rewrite Hf in Hb; auto.
    + destruct p as [k|k|k|k|r]; try (apply IH; exact Hw); [|constructor].
      constructor; [left; reflexivity | apply IH; exact Hw].
Qed.

Lemma all_same_Forall (l : list bool) :
  all_same l = true -> forall v, hd_error l = Some v -> Forall (eq v) l.
Proof.
  induction l as [|b rest IH]; intros Hs v Hv; [constructor|].
  cbn in Hv. injection Hv as <-. constructor; [reflexivity|].
  destruct rest as [|c rest']; [constructor|].
  cbn [all_same] in Hs. apply andb_true_iff in Hs. destruct Hs as [Hbc Hrest].
  apply eqb_prop in Hbc. subst c. apply IH; [exact Hrest | reflexivity].
Qed.

Lemma apply_writes_same (c : bool) (writes : list (Globals -> Globals)) :
  forall g,
    Forall (transition_write c) writes ->
    g_forceSecondary (apply_writes writes g) = c ->
    same_for_handlers (set_forceSecondary c g) (apply_writes writes g).
Proof.
  unfold apply_writes.
  assert (Hkeep : forall ws g, Forall (transition_write c) ws ->
            g_unloading (fold_left (fun g w => w g) ws g) = g_unloading g /\
            g_primaryMonitor (fold_left (fun g w => w g) ws g)
              = g_primaryMonitor g /\
            g_secondaryMonitor (fold_left (fun g w => w g) ws g)
              = g_secondaryMonitor g).
  { induction ws as [|w ws IH]; intros g Hw; [repeat split|].
    inversion Hw as [|w' ws' Hw1 Hw2]; subst. cbn [fold_left].
    destruct (IH (w g) Hw2) as (Hu & Hp & Hs).
    destruct (Hw1 g) as (Hu1 & Hp1 & Hs1 & _).
    rewrite Hu, Hp, Hs. auto. }
  intros g Hw Hc. destruct (Hkeep writes g Hw) as (Hu & Hp & Hs).
  repeat split; cbn; auto.
Qed.

(** A handler run all of whose loads of the forcing flag agree acts on the
    variables as they were before the transition or as they are after it. *)
Lemma interleave_on_snapshot (c : bool) (sched : list Actor)
    (writes : list (Globals -> Globals)) (g : Globals) (p : Steps) :
  Forall (transition_write c) writes ->
  g_forceSecondary (apply_writes writes g) = c ->
  all_same (forcing_loads sched writes g p) = true ->
  interleave sched writes g p = run_snapshot g p \/
  interleave sched writes g p = run_snapshot (apply_writes writes g) p.
Proof.
  intros Hw Hc Hs.
  pose proof (forcing_loads_values c sched writes g p Hw) as Hv.
  destruct (forcing_loads sched writes g p) as [|v l] eqn:Hl.
  - left.
    rewrite (interleave_forcing_const c sched writes g p (g_forceSecondary g) Hw)
      by (rewrite Hl; constructor).
    apply run_snapshot_ext, same_for_handlers_set_force.
  - assert (Hall : Forall (eq v) (forcing_loads sched writes g p))
      by (rewrite Hl; apply all_same_Forall; [exact Hs | reflexivity]).
    rewrite (interleave_forcing_const c sched writes g p v Hw Hall).
    inversion Hv as [|b l' [Hb | Hb] _]; rewrite Hb.
    + left. apply run_snapshot_ext, same_for_handlers_set_force.
    + right. apply run_snapshot_ext, apply_writes_same; assumption.
Qed.

Lemma transition_writes_ok (hWnd : HWND) (writes : list (Globals -> Globals)) :
  writes = entry_writes hWnd \/ writes = exit_writes ->
  exists c, Forall (transition_write c) writes /\
            forall g, g_forceSecondary (apply_writes writes g) = c.
Proof.
  intros [-> | ->]; [exists true | exists false];
    (split; [repeat constructor; intros g; cbn; auto | reflexivity]).
Qed.

(** A handler that loads the forcing flag at most once. *)
Lemma no_forcing_load_snapshot (p : Steps) :
  no_forcing_load p -> forall g, forcing_loads_snapshot g p = [].
Proof.
  induction 1 as [r|k Hk IH|k Hk IH|k Hk IH]; intros g;
    cbn [forcing_loads_snapshot]; auto.
Qed.

Lemma no_forcing_load_interleaved (sched : list Actor) :
  forall writes g p, no_forcing_load p -> forcing_loads sched writes g p = [].
Proof.
  induction sched as [|a sched IH]; intros writes g p Hp.
  - cbn [forcing_loads]. apply no_forcing_load_snapshot. exact Hp.
  - destruct a; cbn [forcing_loads].
    + destruct writes; apply IH; exact Hp.
    + destruct Hp; cbn [load_step]; auto.
Qed.

Lemma single_forcing_load (k : bool -> Steps) (sched : list Actor) :
  (forall b, no_forcing_load (k b)) ->
  forall writes g,
    all_same (forcing_loads sched writes g (Load_forceSecondary k)) = true.
Proof.
  intros Hk. induction sched as [|a sched IH]; intros writes g.
  - cbn [forcing_loads forcing_loads_snapshot].
    rewrite no_forcing_load_snapshot by apply Hk. reflexivity.
  - destruct a; cbn [forcing_loads load_step].
    + destruct writes; apply IH.
    + rewrite no_forcing_load_interleaved by apply Hk. reflexivity.
Qed.

Lemma MonitorFromPoint_steps_all_same (os : OS) (pt : POINT) (flags : Z)
    (sched : list Actor) (writes : list (Globals -> Globals)) (g : Globals) :
  all_same (forcing_loads sched writes g (MonitorFromPoint_steps os pt flags))
  = true.
Proof.
  unfold MonitorFromPoint_steps.
  destruct ((pt_x pt =? 0) && (pt_y pt =? 0)).
  - apply single_forcing_load. intros [|]; [|constructor].
    constructor. intros h. destruct (negb (is_null h)); repeat constructor.
  - rewrite no_forcing_load_interleaved by constructor. reflexivity.
Qed.

(** C9, as the code has it.  For a handler running against the entry or the
    exit transition of the poll loop, under any schedule:
    - every load of the forcing flag returns the value before the
      transition or the value after it;
    - the point-query handler, which loads the flag once, always returns
      what it returns on the variables entirely before or entirely after
      the transition;
    - the stuck-monitor handler, which loads the flag up to three times,
      does so whenever its loads of the flag agree;
    - neither handler reads the tracked window, so writing it changes
      nothing for them. *)
Theorem C9_handlers_against_transitions (os : OS) (g : Globals) (hWnd : HWND)
    (writes : list (Globals -> Globals)) (sched : list Actor) :
  writes = entry_writes hWnd \/ writes = exit_writes ->
  (forall m,
     Forall (fun b => b = g_forceSecondary g \/
                      b = g_forceSecondary (apply_writes writes g))
       (forcing_loads sched writes g (SetStuckMonitor_steps os m))) /\
  (forall pt flags,
     let r := interleave sched writes g (MonitorFromPoint_steps os pt flags) in
     r = MonitorFromPoint_Hook os g pt flags \/
     r = MonitorFromPoint_Hook os (apply_writes writes g) pt flags) /\
  (forall m,
     all_same (forcing_loads sched writes g (SetStuckMonitor_steps os m)) = true ->
     acts_on_a_snapshot os g writes sched m) /\
  (forall m w pt flags,
     TrayUI__SetStuckMonitor_Hook os (set_fullscreenApp w g) m
       = TrayUI__SetStuckMonitor_Hook os g m /\
     MonitorFromPoint_Hook os (set_fullscreenApp w g) pt flags
       = MonitorFromPoint_Hook os g pt flags).
Proof.
  intros Hwr. destruct (transition_writes_ok hWnd writes Hwr) as (c & Hw & Hc).
  split; [|split; [|split]].
  - intros m. rewrite (Hc g). apply forcing_loads_values. exact Hw.
  - intros pt flags. cbv zeta.
    rewrite <- !MonitorFromPoint_steps_snapshot.
    apply (interleave_on_snapshot c); auto.
    apply MonitorFromPoint_steps_all_same.
  - intros m Hs. unfold acts_on_a_snapshot. cbv zeta.
    rewrite <- !SetStuckMonitor_steps_snapshot.
    apply (interleave_on_snapshot c); auto.
  - intros m w pt flags. split; reflexivity.
Qed.

(** C9 as worded fails.  Idle, displays 11 and 12 known, display 13
    supplied: before the entry transition the hook passes 11, after it 12.
    If the write of the forcing flag falls after the hook's load at line 221
    and before its load at line 226, the hook substitutes nothing and passes
    13.  The run also goes through the state in which the tracked window is
    written and the forcing flag is not yet. *)
Lemma C9_counterexample :
  let os := sample_os full_rect 100 [] 1 in
  let sched := [Handler; Handler; Handler; Handler; Poll; Poll] in
  TrayUI__SetStuckMonitor_Hook os running0 13 = 11 /\
  TrayUI__SetStuckMonitor_Hook os (apply_writes (entry_writes 100) running0) 13
    = 12 /\
  interleave sched (entry_writes 100) running0 (SetStuckMonitor_steps os 13)
    = 13 /\
  forcing_loads sched (entry_writes 100) running0 (SetStuckMonitor_steps os 13)
    = [false; false; true] /\
  (let between := apply_writes (firstn 1 (entry_writes 100)) running0 in
   g_fullscreenApp between = 100 /\ g_forceSecondary between = false) /\
  ~ acts_on_a_snapshot os running0 (entry_writes 100) sched 13.
Proof.
  cbv zeta. repeat (split; [vm_compute; reflexivity|]).
  split; [split; reflexivity|].
  intros [H | H]; vm_compute in H; discriminate.
Qed.

Lemma C9_witness :
  let os := sample_os full_rect 100 [] 1 in
  let sched :=
    [Handler; Poll; Handler; Handler; Handler; Handler; Poll; Handler] in
  all_same (forcing_loads sched (entry_writes 100) running0
              (SetStuckMonitor_steps os 13)) = true /\
  acts_on_a_snapshot os running0 (entry_writes 100) sched 13.
Proof.
  cbv zeta.
  assert (Hs : all_same
                 (forcing_loads
                    [Handler; Poll; Handler; Handler; Handler; Handler; Poll;
                     Handler]
                    (entry_writes 100) running0
                    (SetStuckMonitor_steps (sample_os full_rect 100 [] 1) 13))
               = true)
    by (vm_compute; reflexivity).
  split; [exact Hs|].
  exact (proj1 (proj2 (proj2 (C9_handlers_against_transitions
                  (sample_os full_rect 100 [] 1) running0 100
                  (entry_writes 100)
                  [Handler; Poll; Handler; Handler; Handler; Handler; Poll;
                   Handler]
                  (or_introl eq_refl))))
               13 Hs).
Defined.

(** * Further properties of the code *)

(** ** The intercepted point query *)

(** X1: [MonitorFromPoint_Hook] answers the secondary display, whatever the
    flags, at the origin while forcing with a secondary known, and in every
    other case exactly what the unintercepted query answers; it never
    answers null where the unintercepted query answers a display. *)
Theorem X1_point_query_hook (os : OS) (g : Globals) (pt : POINT) (flags : Z) :
  (pt_x pt = 0 -> pt_y pt = 0 -> g_forceSecondary g = true ->
   g_secondaryMonitor g <> nullptr ->
   MonitorFromPoint_Hook os g pt flags = g_secondaryMonitor g) /\
  (pt_x pt <> 0 \/ pt_y pt <> 0 \/ g_forceSecondary g = false \/
   g_secondaryMonitor g = nullptr ->
   MonitorFromPoint_Hook os g pt flags = MonitorFromPoint_Original os pt flags) /\
  (MonitorFromPoint_Original os pt flags <> nullptr ->
   MonitorFromPoint_Hook os g pt flags <> nullptr).
Proof.
  unfold MonitorFromPoint_Hook. split; [|split].
  - intros Hx Hy Hf Hs. apply is_null_false in Hs.
    rewrite Hx, Hy, Hf, Hs. reflexivity.
  - intros H.
    destruct (pt_x pt =? 0) eqn:Hx; [|reflexivity].
    destruct (pt_y pt =? 0) eqn:Hy; [|reflexivity].
    destruct (g_forceSecondary g) eqn:Hf; [|reflexivity].
    destruct (is_null (g_secondaryMonitor g)) eqn:Hs; [reflexivity|].
    apply Z.eqb_eq in Hx, Hy. apply is_null_false in Hs.
    destruct H as [H | [H | [H | H]]]; congruence.
  - intros Ho.
    destruct (_ && negb (is_null (g_secondaryMonitor g))) eqn:Hc; [|exact Ho].
    apply andb_true_iff in Hc. destruct Hc as [_ Hs].
    apply negb_true_iff in Hs. apply is_null_false. exact Hs.
Qed.

Lemma X1_witness :
  let os := sample_os full_rect 100 [] 1 in
  let g := set_forceSecondary true running0 in
  pt_x (mkPOINT 0 0) = 0 /\ pt_y (mkPOINT 0 0) = 0 /\
  g_forceSecondary g = true /\ g_secondaryMonitor g <> nullptr /\
  MonitorFromPoint_Hook os g (mkPOINT 0 0) MONITOR_DEFAULTTOPRIMARY = 12.
Proof.
  cbv zeta.
  assert (Hs : g_secondaryMonitor (set_forceSecondary true running0) <> nullptr)
    by (vm_compute; discriminate).
  repeat (split; [reflexivity|]). split; [exact Hs|].
  exact (proj1 (X1_point_query_hook (sample_os full_rect 100 [] 1)
                  (set_forceSecondary true running0) (mkPOINT 0 0)
                  MONITOR_DEFAULTTOPRIMARY)
               eq_refl eq_refl eq_refl Hs).
Defined.

(** ** More on the monitor registry *)

Section RegistryMore.
Variable os : OS.

Lemma monitorEnum_null_or_counted (index : Z) (mons : list HMONITOR) :
  forall c,
    monitorEnum os index mons c = nullptr \/
    (In (monitorEnum os index mons c) mons /\
     counted os (monitorEnum os index mons c) = true).
Proof.
  induction mons as [|h rest IH]; intros c; [left; reflexivity|].
  cbn [monitorEnum].
  destruct (GetMonitorInfo os h) as [mi|] eqn:Hmi.
  - destruct (Z.land (dwFlags mi) MONITORINFOF_PRIMARY =? 0) eqn:Hp;
      cbn [negb].
    + destruct (c =? index).
      * right. split; [left; reflexivity|].
        unfold counted. rewrite Hmi. exact Hp.
      * destruct (IH (add32 c 1)) as [H | [H1 H2]]; [left; exact H|].
        right. split; [right; exact H1 | exact H2].
    + destruct (IH c) as [H | [H1 H2]]; [left; exact H|].
      right. split; [right; exact H1 | exact H2].
  - destruct (IH c) as [H | [H1 H2]]; [left; exact H|].
    right. split; [right; exact H1 | exact H2].
Qed.

(** X2: whatever the index, [GetMonitorByIndex] returns null or one of the
    enumerated displays that answers [GetMonitorInfo] and is not flagged
    primary: the secondary of the registry is never the primary display. *)
Theorem X2_secondary_never_primary (index : Z) :
  GetMonitorByIndex os index = nullptr \/
  (In (GetMonitorByIndex os index) (EnumDisplayMonitors os) /\
   GetMonitorInfo os (GetMonitorByIndex os index) <> None /\
   is_primary os (GetMonitorByIndex os index) = false).
Proof.
  unfold GetMonitorByIndex.
  destruct (monitorEnum_null_or_counted index (EnumDisplayMonitors os) 0)
    as [H | [H1 H2]]; [left; exact H|].
  right. split; [exact H1|].
  unfold counted in H2. unfold is_primary.
  destruct (GetMonitorInfo os _); [|discriminate].
  split; [discriminate|]. rewrite H2. reflexivity.
Qed.

Lemma monitorEnum_negative_index (index : Z) (mons : list HMONITOR) :
  index < 0 ->
  forall c, 0 <= c -> c + Z.of_nat (length mons) <= INT_MAX ->
  monitorEnum os index mons c = nullptr.
Proof.
  intros Hi. induction mons as [|h rest IH]; intros c Hc Hlen;
    [reflexivity|].
  cbn [monitorEnum length] in *.
  destruct (GetMonitorInfo os h) as [mi|].
  - destruct (negb (Z.land (dwFlags mi) MONITORINFOF_PRIMARY =? 0)).
    + apply IH; lia.
    + replace (c =? index) with false by (symmetry; apply Z.eqb_neq; lia).
      assert (Hadd : add32 c 1 = c + 1).
      { apply wrap32_exact. unfold fits_int, INT_MIN, INT_MAX in *. lia. }
      rewrite Hadd. apply IH; lia.
  - apply IH; lia.
Qed.

Lemma filter_length_le_Z {A} (f : A -> bool) (l : list A) :
  Z.of_nat (length (filter f l)) <= Z.of_nat (length l).
Proof. pose proof (filter_length_le f l). lia. Qed.

Lemma GetMonitorByIndex_not_positive (n : Z) :
  INT_MIN <= n <= 0 ->
  Z.of_nat (length (EnumDisplayMonitors os)) <= INT_MAX ->
  GetMonitorByIndex os (sub32 n 1) = nullptr.
Proof.
  intros Hn Hlen. unfold GetMonitorByIndex.
  destruct (Z.eq_dec n INT_MIN) as [-> | Hne].
  - change (sub32 INT_MIN 1) with INT_MAX.
    rewrite monitorEnum_nth_counted by (unfold INT_MAX; lia).
    apply nth_overflow.
    pose proof (filter_length_le_Z (counted os) (EnumDisplayMonitors os)).
    unfold INT_MAX in *. lia.
  - rewrite sub32_exact
      by (unfold fits_int, INT_MIN, INT_MAX in *; lia).
    apply monitorEnum_negative_index; lia.
Qed.

(** X3: a configured index of 0 or less (any [int] value) selects no
    display: the refresh leaves the secondary null and [Wh_ModInit] returns
    FALSE without starting the poll thread, however many displays are
    attached. *)
Theorem X3_index_not_positive (n : Z) :
  INT_MIN <= n <= 0 ->
  Z.of_nat (length (EnumDisplayMonitors os)) <= INT_MAX ->
  (forall MonitorFromPoint g,
     secondaryMonitor (g_settings g) = n ->
     g_secondaryMonitor (RefreshMonitors MonitorFromPoint os g) = nullptr) /\
  (Wh_GetIntSetting_secondaryMonitor os = n ->
   forall g,
     result_of (Wh_ModInit os g) = false /\
     trace_of (Wh_ModInit os g) = [] /\
     g_secondaryMonitor (state_of (Wh_ModInit os g)) = nullptr).
Proof.
  intros Hn Hlen. split.
  - intros mfp g Hg. unfold RefreshMonitors. cbn. rewrite Hg.
    apply GetMonitorByIndex_not_positive; assumption.
  - intros Hw g.
    assert (Hnull : GetMonitorByIndex os
                      (sub32 (Wh_GetIntSetting_secondaryMonitor os) 1)
                    = nullptr)
      by (rewrite Hw; apply GetMonitorByIndex_not_positive; assumption).
    destruct (Wh_ModInit_without_secondary os g Hnull) as (Hr & Ht & _).
    rewrite Wh_ModInit_secondary. auto.
Qed.

(** X4: when the enumeration reports no display twice, two different
    indices that both exist among the counted displays select different
    displays. *)
Theorem X4_indices_select_distinct_displays (i j : Z) :
  NoDup (EnumDisplayMonitors os) ->
  0 <= i < j -> j <= INT_MAX ->
  j < Z.of_nat (length (counted_displays os)) ->
  GetMonitorByIndex os i <> GetMonitorByIndex os j.
Proof.
  intros Hnd Hij Hmax Hj. unfold GetMonitorByIndex.
  rewrite !monitorEnum_nth_counted by lia.
  rewrite !Z.sub_0_r. intros Heq.
  assert (Hnd' : NoDup (counted_displays os))
    by (apply NoDup_filter; exact Hnd).
  apply (proj1 (NoDup_nth (counted_displays os) nullptr) Hnd'
           (Z.to_nat i) (Z.to_nat j)) in Heq; unfold counted_displays in *; lia.
Qed.
End RegistryMore.

Lemma X3_witness :
  let os := sample_os full_rect 100 [] 0 in
  INT_MIN <= 0 <= 0 /\
  Z.of_nat (length (EnumDisplayMonitors os)) <= INT_MAX /\
  result_of (Wh_ModInit os globals0) = false /\
  trace_of (Wh_ModInit os globals0) = [] /\
  g_secondaryMonitor (state_of (Wh_ModInit os globals0)) = nullptr.
Proof.
  cbv zeta.
  assert (Hn : INT_MIN <= 0 <= 0) by (unfold INT_MIN; lia).
  assert (Hlen : Z.of_nat (length (EnumDisplayMonitors
                                     (sample_os full_rect 100 [] 0)))
                 <= INT_MAX)
    by (vm_compute; discriminate).
  split; [exact Hn|]. split; [exact Hlen|].
  exact (proj2 (X3_index_not_positive (sample_os full_rect 100 [] 0) 0 Hn Hlen)
               eq_refl globals0).
Defined.

Lemma X4_witness :
  let os := sample_os full_rect 100 [] 1 in
  NoDup (EnumDisplayMonitors os) /\
  0 <= 0 < 1 /\ 1 <= INT_MAX /\
  1 < Z.of_nat (length (counted_displays os)) /\
  GetMonitorByIndex os 0 <> GetMonitorByIndex os 1.
Proof.
  cbv zeta.
  assert (Hnd : NoDup (EnumDisplayMonitors (sample_os full_rect 100 [] 1))).
  { cbn. repeat constructor; cbn; intuition discriminate. }
  assert (Hij : 0 <= 0 < 1) by lia.
  assert (Hmax : 1 <= INT_MAX) by (unfold INT_MAX; lia).
  assert (Hlen : 1 < Z.of_nat (length (counted_displays
                                         (sample_os full_rect 100 [] 1))))
    by (vm_compute; reflexivity).
  repeat (split; [assumption|]).
  exact (X4_indices_select_distinct_displays
           (sample_os full_rect 100 [] 1) 0 1 Hnd Hij Hmax Hlen).
Defined.

(** ** More on the redisplay request and the poll loop *)

Lemma set_taskbarHwnd_same (g : Globals) :
  set_taskbarHwnd (g_taskbarHwnd g) g = g.
Proof. destruct g. reflexivity. Qed.

Lemma resolve_taskbar_known (os : OS) (g : Globals) :
  g_taskbarHwnd g <> nullptr -> resolve_taskbar os g = g_taskbarHwnd g.
Proof.
  intros H. apply is_null_false in H. unfold resolve_taskbar.
  rewrite H. reflexivity.
Qed.

(** X5: [ApplyTaskbarSettings] sends the redisplay message at most once:
    to the taskbar window it ends up with when there is one, and to nobody
    when none is known and none is found.  It looks the window up only
    while none is known; a known window is kept, and from then on every
    call, whatever the system answers, changes no variable and sends the
    message to that window. *)
Theorem X5_taskbar_window_is_cached (os : OS) (g : Globals) :
  let r := ApplyTaskbarSettings os g in
  messages_sent (trace_of r)
  = (if is_null (g_taskbarHwnd (state_of r)) then []
     else [g_taskbarHwnd (state_of r)]) /\
  (g_taskbarHwnd g = nullptr ->
   state_of r = set_taskbarHwnd (FindTaskbarInProcess os) g) /\
  (g_taskbarHwnd g = nullptr -> FindTaskbarInProcess os = nullptr ->
   state_of r = g /\ messages_sent (trace_of r) = []) /\
  (g_taskbarHwnd g <> nullptr ->
   state_of r = g /\ messages_sent (trace_of r) = [g_taskbarHwnd g]) /\
  (g_taskbarHwnd (state_of r) <> nullptr ->
   forall os',
     state_of (ApplyTaskbarSettings os' (state_of r)) = state_of r /\
     messages_sent (trace_of (ApplyTaskbarSettings os' (state_of r)))
     = [g_taskbarHwnd (state_of r)]).
Proof.
  cbv zeta. rewrite ApplyTaskbarSettings_run.
  unfold state_of, trace_of. cbn [fst snd].
  assert (Hone : forall h,
            messages_sent [Redisplay h] = if is_null h then [] else [h])
    by (intros h; cbn; destruct (is_null h); reflexivity).
  split; [apply Hone|]. split; [|split; [|split]].
  - intros Hn. unfold resolve_taskbar. apply is_null_true in Hn.
    rewrite Hn. reflexivity.
  - intros Hn Hf. unfold resolve_taskbar.
    rewrite (proj2 (is_null_true _) Hn), Hf, Hone.
    change (is_null nullptr) with true. split; [|reflexivity].
    rewrite <- Hn. apply set_taskbarHwnd_same.
  - intros Hk. rewrite (resolve_taskbar_known os g Hk), Hone.
    rewrite (proj2 (is_null_false _) Hk).
    split; [apply set_taskbarHwnd_same | reflexivity].
  - intros Hk os'.
    rewrite ApplyTaskbarSettings_run. cbn [fst snd].
    rewrite (resolve_taskbar_known os'
               (set_taskbarHwnd (resolve_taskbar os g) g) Hk), Hone.
    rewrite (proj2 (is_null_false _) Hk).
    split; [apply set_taskbarHwnd_same | reflexivity].
Qed.

Lemma X5_witness :
  let os := sample_os full_rect 100 [] 1 in
  g_taskbarHwnd running0 <> nullptr /\
  state_of (ApplyTaskbarSettings os running0) = running0 /\
  messages_sent (trace_of (ApplyTaskbarSettings os running0)) = [3].
Proof.
  cbv zeta.
  assert (Hk : g_taskbarHwnd running0 <> nullptr) by (vm_compute; discriminate).
  split; [exact Hk|].
  exact (proj1 (proj2 (proj2 (proj2 (X5_taskbar_window_is_cached
                         (sample_os full_rect 100 [] 1) running0)))) Hk).
Defined.

Lemma redirection_only_refl (g : Globals) : redirection_only g g.
Proof. repeat split. Qed.

Lemma redirection_only_trans (g1 g2 g3 : Globals) :
  redirection_only g1 g2 -> redirection_only g2 g3 -> redirection_only g1 g3.
Proof.
  unfold redirection_only.
  intros (A1 & A2 & A3 & A4 & A5 & A6 & A7) (B1 & B2 & B3 & B4 & B5 & B6 & B7).
  repeat split; congruence.
Qed.

Lemma resolve_taskbar_set (os : OS) (g : Globals) :
  g_taskbarHwnd g <> nullptr ->
  set_taskbarHwnd (resolve_taskbar os g) g = g.
Proof.
  intros H. rewrite (resolve_taskbar_known os g H).
  apply set_taskbarHwnd_same.
Qed.

(** The state a pass leaves, case by case. *)
Lemma loop_body_cases (os : OS) (last : HWND) (g : Globals) :
  let hWnd := GetForegroundWindow os in
  let h := resolve_taskbar os g in
  let r := loop_body os last g in
  result_of r = hWnd /\
  ((state_of r = g /\ trace_of r = []) \/
   (state_of r = fst (restore_transition os g) /\
    trace_of r = [Redisplay h] /\ tracked_gone os g) \/
   (state_of r = fst (entry_transition os hWnd g) /\
    trace_of r = [Redisplay h] /\
    g_fullscreenApp g = nullptr /\ hWnd <> last /\
    IsWindowFullscreen os g hWnd = true) \/
   (state_of r
    = fst (entry_transition os hWnd (fst (restore_transition os g))) /\
    trace_of r = [Redisplay h; Redisplay h] /\ tracked_gone os g /\
    reenters os last g = true)).
Proof.
  cbv zeta. rewrite loop_body_unfold. cbv zeta.
  destruct (negb (is_null (g_fullscreenApp g))
            && negb (IsWindow os (g_fullscreenApp g))) eqn:Hgone.
  - assert (Hg : tracked_gone os g).
    { apply andb_true_iff in Hgone. destruct Hgone as [Ha Hw].
      apply negb_true_iff in Ha, Hw. apply is_null_false in Ha.
      split; assumption. }
    assert (Hh : resolve_taskbar os (fst (restore_transition os g))
                 = resolve_taskbar os g)
      by (apply resolve_taskbar_again; reflexivity).
    assert (Hfs : IsWindowFullscreen os (fst (restore_transition os g))
                    (GetForegroundWindow os)
                  = IsWindowFullscreen os
                      (set_taskbarHwnd (resolve_taskbar os g) g)
                      (GetForegroundWindow os))
      by (apply IsWindowFullscreen_reads; reflexivity).
    assert (Hnull : is_null (g_fullscreenApp (fst (restore_transition os g)))
                    = true) by reflexivity.
    change (restore_transition os g)
      with (fst (restore_transition os g), [Redisplay (resolve_taskbar os g)]).
    cbv beta iota. rewrite Hfs, Hnull, andb_true_r.
    fold (reenters os last g).
    destruct (reenters os last g) eqn:Hre.
    + unfold entry_transition. cbv beta iota.
      unfold result_of, state_of, trace_of. cbn [fst snd app].
      rewrite !Hh. split; [reflexivity|]. right. right. right. auto.
    + split; [reflexivity|]. right. left.
      unfold result_of, state_of, trace_of. cbn [fst snd app]. auto.
  - destruct (negb (GetForegroundWindow os =? last)
              && (IsWindowFullscreen os g (GetForegroundWindow os)
                  && is_null (g_fullscreenApp g))) eqn:Hen.
    + split; [reflexivity|]. right. right. left.
      unfold entry_transition, state_of, trace_of. cbn [fst snd app].
      apply andb_true_iff in Hen. destruct Hen as [H1 H2].
      apply andb_true_iff in H2. destruct H2 as [H2 H3].
      apply negb_true_iff, Z.eqb_neq in H1. apply is_null_true in H3.
      auto.
    + split; [reflexivity|]. left. split; reflexivity.
Qed.

Lemma restore_transition_frame (os : OS) (g : Globals) :
  redirection_only g (fst (restore_transition os g)).
Proof. repeat split. Qed.

Lemma entry_transition_frame (os : OS) (w : HWND) (g : Globals) :
  redirection_only g (fst (entry_transition os w g)).
Proof. repeat split. Qed.

Lemma loop_body_frame (os : OS) (last : HWND) (g : Globals) :
  redirection_only g (state_of (loop_body os last g)) /\
  (g_taskbarHwnd g <> nullptr ->
   g_taskbarHwnd (state_of (loop_body os last g)) = g_taskbarHwnd g).
Proof.
  destruct (loop_body_cases os last g) as (_ & Hc).
  destruct Hc as [(Hs & _) | [(Hs & _) | [(Hs & _) | (Hs & _)]]];
    rewrite Hs; (split; [repeat split|]); intros Hk;
    cbn [fst entry_transition restore_transition g_taskbarHwnd
           set_taskbarHwnd set_forceSecondary set_fullscreenApp];
    try reflexivity; norm_taskbar;
    rewrite ?(resolve_taskbar_again os g
                (set_taskbarHwnd (resolve_taskbar os g)
                   (set_forceSecondary false (set_fullscreenApp nullptr g))))
      by reflexivity;
    rewrite ?(resolve_taskbar_known os g Hk); reflexivity.
Qed.

(** X6: a pass of the poll loop writes nothing but the tracked window, the
    forcing flag and the taskbar handle: settings, registry, shutdown flag,
    run flag and thread handle are as before.  It returns the foreground
    window as the window examined, and a taskbar window that is known stays
    the same. *)
Theorem X6_pass_frame (os : OS) (last : HWND) (g : Globals) :
  let r := loop_body os last g in
  result_of r = GetForegroundWindow os /\
  redirection_only g (state_of r) /\
  (g_taskbarHwnd g <> nullptr -> g_taskbarHwnd (state_of r) = g_taskbarHwnd g).
Proof.
  cbv zeta. split; [apply loop_body_cases|]. apply loop_body_frame.
Qed.

Lemma X6_witness :
  g_taskbarHwnd running0 <> nullptr /\
  g_taskbarHwnd (state_of (loop_body (sample_os full_rect 100 [] 1) nullptr
                             running0))
  = g_taskbarHwnd running0.
Proof.
  assert (Hk : g_taskbarHwnd running0 <> nullptr) by (vm_compute; discriminate).
  split; [exact Hk|].
  exact (proj2 (proj2 (X6_pass_frame (sample_os full_rect 100 [] 1) nullptr
                         running0)) Hk).
Defined.

(** X7: while the tracked window exists, a pass changes no variable and
    requests nothing, whichever window is in front and however it is
    classified: leaving the application does not bring the taskbar back. *)
Theorem X7_tracked_window_alive_pass_is_silent (os : OS) (last : HWND)
    (g : Globals) :
  g_fullscreenApp g <> nullptr ->
  IsWindow os (g_fullscreenApp g) = true ->
  loop_body os last g = (GetForegroundWindow os, g, []).
Proof.
  intros Ha Hw. apply is_null_false in Ha.
  rewrite loop_body_unfold. cbv zeta. rewrite Ha, Hw.
  cbn [negb andb]. cbv beta iota. rewrite ?Ha, !andb_false_r. reflexivity.
Qed.

Lemma X7_witness :
  let os := sample_os (mkRECT 0 0 800 600) 200 [] 1 in
  let g := set_forceSecondary true (set_fullscreenApp 100 running0) in
  g_fullscreenApp g <> nullptr /\
  IsWindow os (g_fullscreenApp g) = true /\
  loop_body os 100 g = (200, g, []).
Proof.
  cbv zeta.
  assert (Ha : g_fullscreenApp
                 (set_forceSecondary true (set_fullscreenApp 100 running0))
               <> nullptr) by (vm_compute; discriminate).
  assert (Hw : IsWindow (sample_os (mkRECT 0 0 800 600) 200 [] 1)
                 (g_fullscreenApp
                    (set_forceSecondary true (set_fullscreenApp 100 running0)))
               = true) by (vm_compute; reflexivity).
  split; [exact Ha|]. split; [exact Hw|].
  exact (X7_tracked_window_alive_pass_is_silent
           (sample_os (mkRECT 0 0 800 600) 200 [] 1) 100 _ Ha Hw).
Defined.

(** X8: with nothing tracked, a pass starts forcing exactly when the
    foreground window differs from the window examined on the previous
    pass and is classified fullscreen; it then tracks that window, which is
    not null, sets the forcing flag and makes one redisplay request.
    Otherwise the pass changes nothing and requests nothing. *)
Theorem X8_idle_pass (os : OS) (last : HWND) (g : Globals) :
  g_fullscreenApp g = nullptr ->
  let hWnd := GetForegroundWindow os in
  let r := loop_body os last g in
  (hWnd <> last -> IsWindowFullscreen os g hWnd = true ->
   g_forceSecondary (state_of r) = true /\
   g_fullscreenApp (state_of r) = hWnd /\ hWnd <> nullptr /\
   trace_of r = [Redisplay (resolve_taskbar os g)]) /\
  (hWnd = last \/ IsWindowFullscreen os g hWnd = false ->
   r = (hWnd, g, [])).
Proof.
  intros Ha. cbv zeta. rewrite loop_body_unfold. cbv zeta.
  rewrite Ha. change (is_null nullptr) with true. cbn [negb andb].
  cbv beta iota. rewrite ?Ha. change (is_null nullptr) with true.
  rewrite andb_true_r. split.
  - intros Hne Hfs. apply Z.eqb_neq in Hne. rewrite Hne, Hfs.
    cbn [negb andb entry_transition state_of trace_of fst snd app].
    repeat split.
    destruct (IsWindowFullscreen_eligible os g _ Hfs) as (Hnn & _).
    exact Hnn.
  - intros [He | Hf].
    + apply Z.eqb_eq in He. rewrite He. reflexivity.
    + rewrite Hf, andb_false_r. reflexivity.
Qed.

Lemma X8_witness :
  let os := sample_os full_rect 100 [] 1 in
  g_fullscreenApp running0 = nullptr /\
  GetForegroundWindow os <> nullptr /\
  IsWindowFullscreen os running0 (GetForegroundWindow os) = true /\
  g_forceSecondary (state_of (loop_body os nullptr running0)) = true /\
  g_fullscreenApp (state_of (loop_body os nullptr running0)) = 100 /\
  GetForegroundWindow os <> nullptr /\
  trace_of (loop_body os nullptr running0) = [Redisplay 3].
Proof.
  cbv zeta.
  assert (Hne : GetForegroundWindow (sample_os full_rect 100 [] 1) <> nullptr)
    by (vm_compute; discriminate).
  assert (Hfs : IsWindowFullscreen (sample_os full_rect 100 [] 1) running0
                  (GetForegroundWindow (sample_os full_rect 100 [] 1)) = true)
    by (vm_compute; reflexivity).
  split; [reflexivity|]. split; [exact Hne|]. split; [exact Hfs|].
  exact (proj1 (X8_idle_pass (sample_os full_rect 100 [] 1) nullptr running0
                  eq_refl) Hne Hfs).
Defined.

(** X9: a pass that makes no redisplay request has changed no variable,
    and no pass makes more than two.  When a taskbar window is known or
    found, every pass that changes a variable sends it the redisplay
    message; in a process without a taskbar window no pass sends anything,
    whatever it changes. *)
Theorem X9_changes_and_redisplay_messages (os : OS) (last : HWND)
    (g : Globals) :
  let r := loop_body os last g in
  (length (trace_of r) <= 2)%nat /\
  (trace_of r = [] -> state_of r = g) /\
  (resolve_taskbar os g <> nullptr -> state_of r <> g ->
   messages_sent (trace_of r) <> [] /\
   Forall (eq (resolve_taskbar os g)) (messages_sent (trace_of r))) /\
  (resolve_taskbar os g = nullptr -> messages_sent (trace_of r) = []).
Proof.
  cbv zeta. destruct (loop_body_cases os last g) as (_ & Hc).
  destruct Hc as [(Hs & Ht) | [(Hs & Ht & _) | [(Hs & Ht & _) | (Hs & Ht & _)]]];
    rewrite Ht; cbn [length messages_sent];
    (split; [lia|]);
    (split; [try discriminate; intros _; exact Hs|]);
    (split;
     [ intros Hk Hne;
       first [ contradiction
             | rewrite (proj2 (is_null_false _) Hk);
               split; [discriminate | repeat constructor] ]
     | intros Hn; rewrite ?(proj2 (is_null_true _) Hn); reflexivity ]).
Qed.

Lemma X9_witness :
  let os := sample_os full_rect 100 [] 1 in
  resolve_taskbar os running0 <> nullptr /\
  state_of (loop_body os nullptr running0) <> running0 /\
  messages_sent (trace_of (loop_body os nullptr running0)) <> [].
Proof.
  cbv zeta.
  assert (Hk : resolve_taskbar (sample_os full_rect 100 [] 1) running0
               <> nullptr) by (vm_compute; discriminate).
  assert (Hne : state_of (loop_body (sample_os full_rect 100 [] 1) nullptr
                            running0) <> running0)
    by (vm_compute; discriminate).
  split; [exact Hk|]. split; [exact Hne|].
  exact (proj1 (proj1 (proj2 (proj2 (X9_changes_and_redisplay_messages
                         (sample_os full_rect 100 [] 1) nullptr running0)))
                      Hk Hne)).
Defined.

Lemma loop_body_tracking (os : OS) (last : HWND) (g : Globals) :
  tracking_consistent g ->
  tracking_consistent (state_of (loop_body os last g)).
Proof.
  intros Hc. destruct (loop_body_cases os last g) as (_ & Hcases).
  destruct Hcases
    as [(Hs & _) | [(Hs & _) | [(Hs & _ & _ & _ & Hfs) | (Hs & _ & _ & Hre)]]];
    rewrite Hs.
  - exact Hc.
  - reflexivity.
  - destruct (IsWindowFullscreen_eligible os g _ Hfs) as (Hnn & _).
    apply is_null_false in Hnn.
    unfold tracking_consistent, entry_transition. cbn. rewrite Hnn.
    reflexivity.
  - unfold reenters in Hre. apply andb_true_iff in Hre.
    destruct Hre as [_ Hfs].
    destruct (IsWindowFullscreen_eligible os _ _ Hfs) as (Hnn & _).
    apply is_null_false in Hnn.
    unfold tracking_consistent, entry_transition. cbn. rewrite Hnn.
    reflexivity.
Qed.

Lemma loop_body_redisplays (os : OS) (last : HWND) (g : Globals) :
  all_redisplay (resolve_taskbar os g) (trace_of (loop_body os last g)).
Proof.
  destruct (loop_body_cases os last g) as (_ & Hc).
  destruct Hc as [(_ & Ht) | [(_ & Ht & _) | [(_ & Ht & _) | (_ & Ht & _)]]];
    rewrite Ht; repeat constructor.
Qed.

Lemma state_of_triple {A} (a : A) (g : Globals) (t : list Event) :
  state_of (a, g, t) = g.
Proof. reflexivity. Qed.

Lemma trace_of_triple {A} (a : A) (g : Globals) (t : list Event) :
  trace_of (a, g, t) = t.
Proof. reflexivity. Qed.

Lemma result_of_triple {A} (a : A) (g : Globals) (t : list Event) :
  result_of (a, g, t) = a.
Proof. reflexivity. Qed.

Lemma poll_loop_cons (body : OS -> HWND -> M HWND) (os : OS)
    (rest : list OS) (last : HWND) (g : Globals) :
  poll_loop body (os :: rest) last g
  = if g_running g
    then let r1 := body os last g in
         let r2 := poll_loop body rest (result_of r1) (state_of r1) in
         (result_of r2, state_of r2, trace_of r1 ++ trace_of r2)
    else (last, g, []).
Proof.
  cbn [poll_loop]. unfold bind, get, ret. cbv beta iota.
  destruct (g_running g); [|reflexivity].
  destruct (body os last g) as [[last1 g1] t1].
  unfold result_of, state_of, trace_of. cbn [fst snd].
  destruct (poll_loop body rest last1 g1) as [[last2 g2] t2]. reflexivity.
Qed.

Lemma poll_loop_invariants (ticks : list OS) :
  forall last g,
    tracking_consistent g ->
    let r := poll_loop loop_body ticks last g in
    tracking_consistent (state_of r) /\
    redirection_only g (state_of r) /\
    (g_taskbarHwnd g <> nullptr ->
     g_taskbarHwnd (state_of r) = g_taskbarHwnd g /\
     all_redisplay (g_taskbarHwnd g) (trace_of r)).
Proof.
  induction ticks as [|os rest IH]; intros last g Hc; cbv zeta.
  - cbn. split; [exact Hc|]. split; [apply redirection_only_refl|].
    intros _. split; [reflexivity | constructor].
  - rewrite poll_loop_cons. destruct (g_running g).
    + cbv zeta.
      pose proof (loop_body_tracking os last g Hc) as Hc1.
      destruct (loop_body_frame os last g) as (Hfr1 & Hk1).
      pose proof (loop_body_redisplays os last g) as Hev1.
      destruct (IH (result_of (loop_body os last g))
                  (state_of (loop_body os last g)) Hc1) as (Hc2 & Hfr2 & Hk2).
      rewrite !state_of_triple, !trace_of_triple.
      split; [exact Hc2|].
      split; [eapply redirection_only_trans; eassumption|].
      intros Hk. specialize (Hk1 Hk).
      assert (Hk' : g_taskbarHwnd (state_of (loop_body os last g)) <> nullptr)
        by congruence.
      destruct (Hk2 Hk') as (Hh2 & Hev2).
      split; [congruence|].
      apply Forall_app. split.
      * rewrite (resolve_taskbar_known os g Hk) in Hev1. exact Hev1.
      * rewrite Hk1 in Hev2. exact Hev2.
    + cbn. split; [exact Hc|]. split; [apply redirection_only_refl|].
      intros _. split; [reflexivity | constructor].
Qed.

(** X10: along any run of the poll loop, over any sequence of system
    snapshots and from any state in which the tracked window and the
    forcing flag go together, they still go together at the end; the run
    writes nothing but the tracked window, the forcing flag and the taskbar
    handle; and once a taskbar window is known it stays the same and every
    event of the run is a redisplay request to it. *)
Theorem X10_run_invariants (ticks : list OS) :
  forall last g,
    tracking_consistent g ->
    let r := poll_loop loop_body ticks last g in
    tracking_consistent (state_of r) /\
    redirection_only g (state_of r) /\
    (g_taskbarHwnd g <> nullptr ->
     g_taskbarHwnd (state_of r) = g_taskbarHwnd g /\
     all_redisplay (g_taskbarHwnd g) (trace_of r)).
Proof. exact (poll_loop_invariants ticks). Qed.

Lemma X10_witness :
  let ticks := [sample_os full_rect 100 [] 1; sample_os full_rect 200 [100] 1] in
  tracking_consistent running0 /\
  g_taskbarHwnd running0 <> nullptr /\
  tracking_consistent (state_of (poll_loop loop_body ticks nullptr running0)) /\
  all_redisplay (g_taskbarHwnd running0)
    (trace_of (poll_loop loop_body ticks nullptr running0)).
Proof.
  cbv zeta.
  assert (Hc : tracking_consistent running0) by reflexivity.
  assert (Hk : g_taskbarHwnd running0 <> nullptr) by (vm_compute; discriminate).
  split; [exact Hc|]. split; [exact Hk|].
  pose (H := X10_run_invariants
               [sample_os full_rect 100 [] 1; sample_os full_rect 200 [100] 1]
               nullptr running0 Hc).
  split; [exact (proj1 H) | exact (proj2 (proj2 (proj2 H) Hk))].
Defined.

(** The poll loop over two sequences of snapshots in a row. *)
Lemma poll_loop_app (body : OS -> HWND -> M HWND) (ticks1 ticks2 : list OS) :
  forall last g,
    poll_loop body (ticks1 ++ ticks2) last g
    = let r1 := poll_loop body ticks1 last g in
      let r2 := poll_loop body ticks2 (result_of r1) (state_of r1) in
      (result_of r2, state_of r2, trace_of r1 ++ trace_of r2).
Proof.
  induction ticks1 as [|os rest IH]; intros last g; cbv zeta.
  - cbn. destruct (poll_loop body ticks2 last g) as [[l s] t]. reflexivity.
  - cbn [app]. rewrite !poll_loop_cons. destruct (g_running g) eqn:Hr.
    + cbv zeta. rewrite !IH. cbv zeta.
      rewrite !result_of_triple, !state_of_triple, !trace_of_triple.
      rewrite app_assoc. reflexivity.
    + rewrite !result_of_triple, !state_of_triple, !trace_of_triple.
      rewrite poll_loop_not_running by exact Hr. reflexivity.
Qed.

(** ** More on the lifecycle *)

(** [Wh_ModInit] in closed form. *)
Lemma Wh_ModInit_run (os : OS) (g : Globals) :
  Wh_ModInit os g =
  let g1 :=
    RefreshMonitors (MonitorFromPoint_Original os) os
      (set_taskbarHwnd (FindTaskbarInProcess os)
         (set_settings
            (mkSettings (Wh_GetIntSetting_secondaryMonitor os)
               (Wh_GetIntSetting_pollInterval os)
               (negb (Wh_GetIntSetting_enableLogging os =? 0))) g)) in
  if is_null (g_primaryMonitor g1) || is_null (g_secondaryMonitor g1)
  then (false, g1, [])
  else if negb (HookSymbols_ok os) then (false, g1, [])
  else
    let g2 := set_monitorThread (CreateThread_result os)
                (set_running true (set_initialized true g1)) in
    if is_null (CreateThread_result os) then (false, g2, [])
    else (true, g2, [ThreadStarted]).
Proof.
  unfold Wh_ModInit, LoadSettings, bind, modify, get, ret, emit.
  cbv beta iota zeta.
  destruct (is_null (g_primaryMonitor _) || is_null (g_secondaryMonitor _));
    [reflexivity|].
  destruct (negb (HookSymbols_ok os)); [reflexivity|].
  cbn [g_monitorThread set_monitorThread].
  destruct (is_null (CreateThread_result os)); reflexivity.
Qed.

Lemma init_conditions_registry (os : OS) (g : Globals) :
  let g1 :=
    RefreshMonitors (MonitorFromPoint_Original os) os
      (set_taskbarHwnd (FindTaskbarInProcess os)
         (set_settings
            (mkSettings (Wh_GetIntSetting_secondaryMonitor os)
               (Wh_GetIntSetting_pollInterval os)
               (negb (Wh_GetIntSetting_enableLogging os =? 0))) g)) in
  g_primaryMonitor g1
  = MonitorFromPoint_Original os (mkPOINT 0 0) MONITOR_DEFAULTTOPRIMARY /\
  g_secondaryMonitor g1
  = GetMonitorByIndex os (sub32 (Wh_GetIntSetting_secondaryMonitor os) 1) /\
  g_initialized g1 = g_initialized g /\ g_running g1 = g_running g /\
  g_monitorThread g1 = g_monitorThread g /\
  g_unloading g1 = g_unloading g /\
  g_forceSecondary g1 = g_forceSecondary g /\
  g_fullscreenApp g1 = g_fullscreenApp g.
Proof. cbv zeta. repeat split. Qed.

(** X12: [Wh_ModInit] returns TRUE exactly when a primary display answers at
    the origin, the configured secondary display exists, the taskbar
    symbols can be hooked and the poll thread can be created; the thread is
    started exactly when it returns TRUE.  On success the mod is marked
    initialised and running, both displays of the registry are non-null,
    and the redirection state is what it was. *)
Theorem X12_init_succeeds_iff (os : OS) (g : Globals) :
  let r := Wh_ModInit os g in
  result_of r = init_conditions os /\
  trace_of r = (if init_conditions os then [ThreadStarted] else []) /\
  (result_of r = true ->
   g_initialized (state_of r) = true /\ g_running (state_of r) = true /\
   g_monitorThread (state_of r) = CreateThread_result os /\
   g_monitorThread (state_of r) <> nullptr /\
   g_primaryMonitor (state_of r) <> nullptr /\
   g_secondaryMonitor (state_of r) <> nullptr /\
   g_unloading (state_of r) = g_unloading g /\
   g_forceSecondary (state_of r) = g_forceSecondary g /\
   g_fullscreenApp (state_of r) = g_fullscreenApp g).
Proof.
  cbv zeta. rewrite Wh_ModInit_run. cbv zeta.
  destruct (init_conditions_registry os g) as (Hp & Hs & _).
  cbv zeta in Hp, Hs. rewrite Hp, Hs. unfold init_conditions.
  destruct (is_null (MonitorFromPoint_Original os _ _)) eqn:Hp0;
    cbn [orb negb andb]; [repeat split; discriminate|].
  destruct (is_null (GetMonitorByIndex os _)) eqn:Hs0;
    cbn [orb negb andb]; [repeat split; discriminate|].
  destruct (HookSymbols_ok os); cbn [negb andb];
    [|repeat split; discriminate].
  destruct (is_null (CreateThread_result os)) eqn:Ht; cbn [negb];
    [repeat split; discriminate|].
  split; [reflexivity|]. split; [reflexivity|]. intros _.
  unfold state_of. cbn [fst snd].
  apply is_null_false in Hp0, Hs0, Ht.
  repeat split; try assumption.
Qed.

Lemma X12_witness :
  let os := sample_os full_rect 100 [] 1 in
  result_of (Wh_ModInit os globals0) = true /\
  g_initialized (state_of (Wh_ModInit os globals0)) = true /\
  g_running (state_of (Wh_ModInit os globals0)) = true /\
  g_monitorThread (state_of (Wh_ModInit os globals0)) = CreateThread_result os /\
  g_monitorThread (state_of (Wh_ModInit os globals0)) <> nullptr /\
  g_primaryMonitor (state_of (Wh_ModInit os globals0)) <> nullptr /\
  g_secondaryMonitor (state_of (Wh_ModInit os globals0)) <> nullptr /\
  g_unloading (state_of (Wh_ModInit os globals0)) = g_unloading globals0 /\
  g_forceSecondary (state_of (Wh_ModInit os globals0))
    = g_forceSecondary globals0 /\
  g_fullscreenApp (state_of (Wh_ModInit os globals0))
    = g_fullscreenApp globals0.
Proof.
  cbv zeta.
  assert (Hr : result_of (Wh_ModInit (sample_os full_rect 100 [] 1) globals0)
               = true) by (vm_compute; reflexivity).
  split; [exact Hr|].
  exact (proj2 (proj2 (X12_init_succeeds_iff (sample_os full_rect 100 [] 1)
                         globals0)) Hr).
Defined.

(** X13: what a failed [Wh_ModInit] leaves behind.  If it fails because a
    display of the registry is missing or the symbols cannot be hooked, the
    initialised flag, the run flag and the thread handle are untouched.  If
    it fails because the thread cannot be created, the mod is nevertheless
    left marked initialised and running, with a null thread handle. *)
Theorem X13_failed_init (os : OS) (g : Globals) :
  let r := Wh_ModInit os g in
  (is_null (MonitorFromPoint_Original os (mkPOINT 0 0) MONITOR_DEFAULTTOPRIMARY)
   || is_null (GetMonitorByIndex os
                 (sub32 (Wh_GetIntSetting_secondaryMonitor os) 1))
   || negb (HookSymbols_ok os) = true ->
   result_of r = false /\
   g_initialized (state_of r) = g_initialized g /\
   g_running (state_of r) = g_running g /\
   g_monitorThread (state_of r) = g_monitorThread g) /\
  (is_null (MonitorFromPoint_Original os (mkPOINT 0 0) MONITOR_DEFAULTTOPRIMARY)
   || is_null (GetMonitorByIndex os
                 (sub32 (Wh_GetIntSetting_secondaryMonitor os) 1))
   || negb (HookSymbols_ok os) = false ->
   CreateThread_result os = nullptr ->
   result_of r = false /\
   g_initialized (state_of r) = true /\
   g_running (state_of r) = true /\
   g_monitorThread (state_of r) = nullptr).
Proof.
  cbv zeta. rewrite Wh_ModInit_run. cbv zeta.
  destruct (init_conditions_registry os g) as (Hp & Hs & Hi & Hr & Ht & _).
  cbv zeta in Hp, Hs, Hi, Hr, Ht. rewrite Hp, Hs.
  destruct (is_null (MonitorFromPoint_Original os _ _)
            || is_null (GetMonitorByIndex os _)) eqn:Hreg; cbn [orb].
  - split; [|discriminate]. intros _. unfold result_of, state_of.
    cbn [fst snd]. auto.
  - destruct (negb (HookSymbols_ok os)).
    + split; [|discriminate]. intros _. unfold result_of, state_of.
      cbn [fst snd]. auto.
    + split; [discriminate|]. intros _ Hc. rewrite Hc.
      change (is_null nullptr) with true. repeat split.
Qed.

Lemma X13_witness :
  let os :=
    mkOS (fun _ => true) 1 2 (fun _ => WS_VISIBLE) (fun _ => Some full_rect)
         (fun _ _ => 11)
         (fun h => if h =? 11 then Some primary_info
                   else if h =? 12 then Some second_info else None)
         [11; 12] 100 (fun _ => true) 3 true nullptr 1 2000 0 in
  CreateThread_result os = nullptr /\
  result_of (Wh_ModInit os globals0) = false /\
  g_initialized (state_of (Wh_ModInit os globals0)) = true /\
  g_running (state_of (Wh_ModInit os globals0)) = true /\
  g_monitorThread (state_of (Wh_ModInit os globals0)) = nullptr.
Proof.
  cbv zeta. split; [reflexivity|].
  apply (proj2 (X13_failed_init _ globals0)); vm_compute; reflexivity.
Defined.

(** X14: [Wh_ModSettingsChanged] reloads the three settings (logging is on
    for any non-zero stored value), recomputes the registry and touches
    nothing else: flags, tracked window, taskbar handle and thread handle
    are as before and nothing is requested from the shell.  While not
    forcing, or with no secondary known, the primary display it records is
    the one the unintercepted query answers at the origin. *)
Theorem X14_settings_change (os : OS) (g : Globals) :
  let r := Wh_ModSettingsChanged os g in
  registry_only g (state_of r) /\
  trace_of r = [] /\
  g_settings (state_of r)
  = mkSettings (Wh_GetIntSetting_secondaryMonitor os)
      (Wh_GetIntSetting_pollInterval os)
      (negb (Wh_GetIntSetting_enableLogging os =? 0)) /\
  (g_forceSecondary g = false \/ g_secondaryMonitor g = nullptr ->
   g_primaryMonitor (state_of r)
   = MonitorFromPoint_Original os (mkPOINT 0 0) MONITOR_DEFAULTTOPRIMARY).
Proof.
  cbv zeta. split; [repeat split|]. split; [reflexivity|].
  split; [reflexivity|]. intros H.
  unfold Wh_ModSettingsChanged, LoadSettings, RefreshMonitors, state_of,
    bind, modify, get. cbn.
  unfold MonitorFromPoint_Hook. cbn.
  destruct H as [H | H]; rewrite H; [reflexivity|].
  change (is_null nullptr) with true. rewrite andb_false_r. reflexivity.
Qed.

Lemma X14_witness :
  let os := sample_os full_rect 100 [] 2 in
  (g_forceSecondary running0 = false \/ g_secondaryMonitor running0 = nullptr) /\
  g_primaryMonitor (state_of (Wh_ModSettingsChanged os running0)) = 11.
Proof.
  cbv zeta.
  assert (H : g_forceSecondary running0 = false \/
              g_secondaryMonitor running0 = nullptr) by (left; reflexivity).
  split; [exact H|].
  exact (proj2 (proj2 (proj2 (X14_settings_change
                                (sample_os full_rect 100 [] 2) running0))) H).
Defined.

(** X15: a settings change while forcing, with a secondary display known,
    records that secondary display as the primary one: the refresh asks
    [MonitorFromPoint] at the origin, and that call is the intercepted
    one. *)
Theorem X15_settings_change_while_forcing (os : OS) (g : Globals) :
  g_forceSecondary g = true -> g_secondaryMonitor g <> nullptr ->
  g_primaryMonitor (state_of (Wh_ModSettingsChanged os g))
  = g_secondaryMonitor g.
Proof.
  intros Hf Hs. apply is_null_false in Hs.
  unfold Wh_ModSettingsChanged, LoadSettings, RefreshMonitors, state_of,
    bind, modify, get. cbn.
  unfold MonitorFromPoint_Hook. cbn. rewrite Hf, Hs. reflexivity.
Qed.

Lemma X15_witness :
  let g := set_forceSecondary true (set_fullscreenApp 100 running0) in
  g_forceSecondary g = true /\ g_secondaryMonitor g <> nullptr /\
  g_primaryMonitor
    (state_of (Wh_ModSettingsChanged (sample_os full_rect 100 [] 1) g)) = 12.
Proof.
  cbv zeta.
  assert (Hs : g_secondaryMonitor
                 (set_forceSecondary true (set_fullscreenApp 100 running0))
               <> nullptr) by (vm_compute; discriminate).
  split; [reflexivity|]. split; [exact Hs|].
  exact (X15_settings_change_while_forcing (sample_os full_rect 100 [] 1)
           (set_forceSecondary true (set_fullscreenApp 100 running0))
           eq_refl Hs).
Defined.

(** ** The poll loop and the hooks together *)




(** X17: once a pass has found the tracked window gone and has not started
    forcing again, the shell is sent back: outside shutdown and with a
    primary display known, the stuck-monitor hook hands the primary display
    to the original for every supplied display, and the point query is the
    unintercepted one at every point. *)
Theorem X17_restore_returns_the_shell (os : OS) (last : HWND) (g : Globals) :
  tracked_gone os g -> reenters os last g = false ->
  g_unloading g = false -> g_primaryMonitor g <> nullptr ->
  let g' := state_of (loop_body os last g) in
  forall os' m pt flags,
    TrayUI__SetStuckMonitor_Hook os' g' m = g_primaryMonitor g /\
    MonitorFromPoint_Hook os' g' pt flags
    = MonitorFromPoint_Original os' pt flags.
Proof.
  intros Hg Hre Hu Hp. cbv zeta. intros os' m pt flags.
  rewrite (loop_body_tracked_gone os last g Hg). cbv zeta. rewrite Hre.
  rewrite state_of_triple. apply is_null_false in Hp.
  rewrite TrayUI__SetStuckMonitor_Hook_table.
  unfold MonitorFromPoint_Hook. cbn. rewrite Hu, Hp.
  rewrite andb_false_r. split; reflexivity.
Qed.

Lemma X17_witness :
  let os := sample_os full_rect 100 [100] 1 in
  let g := set_forceSecondary true (set_fullscreenApp 100 running0) in
  tracked_gone os g /\ reenters os 100 g = false /\
  g_unloading g = false /\ g_primaryMonitor g <> nullptr /\
  TrayUI__SetStuckMonitor_Hook os (state_of (loop_body os 100 g)) 12 = 11 /\
  MonitorFromPoint_Hook os (state_of (loop_body os 100 g)) (mkPOINT 0 0)
    MONITOR_DEFAULTTOPRIMARY
  = MonitorFromPoint_Original os (mkPOINT 0 0) MONITOR_DEFAULTTOPRIMARY.
Proof.
  cbv zeta.
  assert (Hg : tracked_gone (sample_os full_rect 100 [100] 1)
                 (set_forceSecondary true (set_fullscreenApp 100 running0)))
    by (split; vm_compute; [discriminate | reflexivity]).
  assert (Hre : reenters (sample_os full_rect 100 [100] 1) 100
                  (set_forceSecondary true (set_fullscreenApp 100 running0))
                = false) by (vm_compute; reflexivity).
  assert (Hp : g_primaryMonitor
                 (set_forceSecondary true (set_fullscreenApp 100 running0))
               <> nullptr) by (vm_compute; discriminate).
  split; [exact Hg|]. split; [exact Hre|]. split; [reflexivity|].
  split; [exact Hp|].
  exact (X17_restore_returns_the_shell (sample_os full_rect 100 [100] 1) 100
           (set_forceSecondary true (set_fullscreenApp 100 running0))
           Hg Hre eq_refl Hp
           (sample_os full_rect 100 [100] 1) 12 (mkPOINT 0 0)
           MONITOR_DEFAULTTOPRIMARY).
Defined.

(** [Wh_ModUninit] in closed form. *)
Lemma Wh_ModUninit_run (os : OS) (thread_rest : M unit) (g : Globals) :
  Wh_ModUninit os thread_rest g =
  let waited :=
    if is_null (g_monitorThread g)
    then (tt, set_running false (set_unloading true g), [])
    else thread_rest (set_running false (set_unloading true g)) in
  (tt,
   set_taskbarHwnd (resolve_taskbar os (state_of waited))
     (set_forceSecondary false (set_fullscreenApp nullptr (state_of waited))),
   trace_of waited ++ [Redisplay (resolve_taskbar os (state_of waited))]).
Proof.
  unfold Wh_ModUninit, bind, modify, get, ret.
  cbn [g_monitorThread set_running set_unloading].
  destruct (is_null (g_monitorThread g)); cbn [negb].
  - rewrite ApplyTaskbarSettings_run. reflexivity.
  - destruct (thread_rest _) as [[[] g1] t1].
    rewrite ApplyTaskbarSettings_run. reflexivity.
Qed.

(** X18: after [Wh_ModUninit] the hooks no longer redirect anything.  The
    point query is the unintercepted one at every point, whatever the poll
    thread did during the wait; and with the poll loop stopped by the run
    flag, the stuck-monitor hook hands every supplied display to the
    original untouched, so the shell's own choice decides. *)
Theorem X18_hooks_transparent_after_shutdown (os : OS) (g : Globals) :
  (forall thread_rest os' pt flags,
     MonitorFromPoint_Hook os' (state_of (Wh_ModUninit os thread_rest g))
       pt flags
     = MonitorFromPoint_Original os' pt flags) /\
  (forall ticks last os' m,
     TrayUI__SetStuckMonitor_Hook os'
       (state_of (Wh_ModUninit os (poll_loop loop_body ticks last ;; ret tt) g))
       m = m).
Proof.
  split.
  - intros thread_rest os' pt flags. rewrite Wh_ModUninit_run. cbv zeta.
    rewrite state_of_triple. unfold MonitorFromPoint_Hook. cbn.
    rewrite andb_false_r. reflexivity.
  - intros ticks last os' m. rewrite Wh_ModUninit_run. cbv zeta.
    rewrite poll_loop_then_ret_not_running by reflexivity.
    rewrite state_of_triple, TrayUI__SetStuckMonitor_Hook_table.
    destruct (is_null (g_monitorThread g)); reflexivity.
Qed.

(** ** More on the handlers against a transition in progress *)

Lemma run_switch_finished (p : Steps) :
  forall before after,
    exists n, run_switch n before after p = run_snapshot before p.
Proof.
  induction p as [k IH|k IH|k IH|k IH|r]; intros before after.
  - destruct (IH (g_forceSecondary before) before after) as [n Hn].
    exists (S n). exact Hn.
  - destruct (IH (g_unloading before) before after) as [n Hn].
    exists (S n). exact Hn.
  - destruct (IH (g_primaryMonitor before) before after) as [n Hn].
    exists (S n). exact Hn.
  - destruct (IH (g_secondaryMonitor before) before after) as [n Hn].
    exists (S n). exact Hn.
  - exists (S O). reflexivity.
Qed.

Lemma load_step_ext (p : Steps) (g1 g2 : Globals) :
  same_for_handlers g1 g2 -> load_step g1 p = load_step g2 p.
Proof.
  intros (Hf & Hu & Hp & Hs). destruct p; cbn [load_step];
    rewrite ?Hf, ?Hu, ?Hp, ?Hs; reflexivity.
Qed.

Lemma run_switch_ext (n : nat) :
  forall p b1 b2 a1 a2,
    same_for_handlers b1 b2 -> same_for_handlers a1 a2 ->
    run_switch n b1 a1 p = run_switch n b2 a2 p.
Proof.
  induction n as [|n IH]; intros p b1 b2 a1 a2 Hb Ha; cbn [run_switch].
  - apply run_snapshot_ext. exact Ha.
  - rewrite (load_step_ext p b1 b2 Hb).
    destruct p; try reflexivity; apply IH; assumption.
Qed.

Lemma run_snapshot_load_step (g : Globals) (p : Steps) :
  run_snapshot g (load_step g p) = run_snapshot g p.
Proof. destruct p; reflexivity. Qed.

Lemma run_switch_same (n : nat) :
  forall p before after,
    same_for_handlers before after ->
    run_switch n before after p = run_snapshot after p.
Proof.
  induction n as [|n IH]; intros p before after Hs; cbn [run_switch];
    [reflexivity|].
  destruct p; try reflexivity;
    rewrite (IH _ before after Hs), (load_step_ext _ before after Hs);
    apply run_snapshot_load_step.
Qed.

(** Any run of a handler against the writes of a transition is a run that
    sees the variables before the write of the forcing flag for its first
    loads and the variables after it for the rest. *)
Lemma interleave_switch (c : bool) (sched : list Actor) :
  forall writes g p,
    Forall (transition_write c) writes ->
    exists n,
      interleave sched writes g p
      = run_switch n g (set_forceSecondary c g) p.
Proof.
  induction sched as [|a sched IH]; intros writes g p Hw.
  - cbn [interleave]. destruct (run_switch_finished p g (set_forceSecondary c g))
      as [n Hn]. exists n. symmetry. exact Hn.
  - destruct a; cbn [interleave].
    + destruct writes as [|w writes]; [apply IH; exact Hw|].
      inversion Hw as [|w' ws' Hw1 Hw2]; subst.
      destruct (IH writes (w g) p Hw2) as [n Hn]. rewrite Hn.
      destruct (Hw1 g) as (Hu & Hp & Hs & [Hf | Hf]).
      * exists n. apply run_switch_ext; repeat split; assumption.
      * exists O. cbn [run_switch].
        rewrite run_switch_same by (repeat split; cbn; auto).
        apply run_snapshot_ext. repeat split; assumption.
    + destruct p as [k|k|k|k|r].
      * destruct (IH writes g (k (g_forceSecondary g)) Hw) as [n Hn].
        exists (S n). exact Hn.
      * destruct (IH writes g (k (g_unloading g)) Hw) as [n Hn].
        exists (S n). exact Hn.
      * destruct (IH writes g (k (g_primaryMonitor g)) Hw) as [n Hn].
        exists (S n). exact Hn.
      * destruct (IH writes g (k (g_secondaryMonitor g)) Hw) as [n Hn].
        exists (S n). exact Hn.
      * exists O. reflexivity.
Qed.

Ltac switch_eval Hp Hs :=
  repeat (progress
            (cbn [run_switch run_snapshot load_step SetStuckMonitor_steps
                    SetStuckMonitor_decide SetStuckMonitor_else_if
                    SetStuckMonitor_finish g_forceSecondary g_unloading
                    g_primaryMonitor g_secondaryMonitor set_forceSecondary
                    negb andb];
             rewrite ?Hp, ?Hs)).

Ltac switch_all Hp Hs :=
  switch_eval Hp Hs;
  match goal with
  | |- context [run_switch ?n _ _ _] =>
      is_var n; destruct n; switch_all Hp Hs
  | _ => idtac
  end.

(** The stuck-monitor hook with the forcing flag switching to [c] at any
    point of its run: the display passed on, by the flags before. *)
Lemma SetStuckMonitor_switch (os : OS) (g : Globals) (m : HMONITOR)
    (c : bool) (n : nat) :
  let r := run_switch n g (set_forceSecondary c g) (SetStuckMonitor_steps os m) in
  ((c = false /\ g_unloading g = false) \/ (c = true /\ g_unloading g = true) ->
   r = TrayUI__SetStuckMonitor_Hook os g m \/
   r = TrayUI__SetStuckMonitor_Hook os (set_forceSecondary c g) m) /\
  (g_unloading g = false ->
   MonitorFromPoint_Original os (mkPOINT 0 0) MONITOR_DEFAULTTONEAREST
     <> nullptr ->
   r <> nullptr).
Proof.
  cbv zeta. rewrite !TrayUI__SetStuckMonitor_Hook_table.
  destruct g as [s i u f p sec t th rn a].
  cbn [g_forceSecondary g_unloading g_primaryMonitor g_secondaryMonitor
         set_forceSecondary].
  assert (Hfb : MonitorFromPoint_Original os (mkPOINT 0 0)
                  MONITOR_DEFAULTTONEAREST <> nullptr ->
                (if is_null m
                 then MonitorFromPoint_Original os (mkPOINT 0 0)
                        MONITOR_DEFAULTTONEAREST
                 else m) <> nullptr).
  { intros Hq. destruct (is_null m) eqn:Hm; [exact Hq|].
    apply is_null_false. exact Hm. }
  unfold origin_fallback.
  destruct (is_null p) eqn:Hp, (is_null sec) eqn:Hs;
    pose proof (proj1 (is_null_false p)) as Hpn;
    pose proof (proj1 (is_null_false sec)) as Hsn;
    (split;
     [ intros [[-> ->] | [-> ->]]; destruct f; switch_all Hp Hs;
       first [left; reflexivity | right; reflexivity]
     | intros -> Hq; specialize (Hfb Hq); destruct f, c; switch_all Hp Hs;
       first [exact Hfb | apply Hpn; assumption | apply Hsn; assumption] ]).
Qed.

(** X19: the restoring transition outside shutdown, and the entry
    transition during shutdown, are always seen whole by the stuck-monitor
    hook: under every schedule of its loads against the two writes, the
    display it passes on is the one it passes on the variables entirely
    before or entirely after the transition. *)
Theorem X19_transitions_seen_whole (os : OS) (g : Globals) (hWnd : HWND)
    (sched : list Actor) (m : HMONITOR) :
  (g_unloading g = false -> acts_on_a_snapshot os g exit_writes sched m) /\
  (g_unloading g = true ->
   acts_on_a_snapshot os g (entry_writes hWnd) sched m).
Proof.
  unfold acts_on_a_snapshot. cbv zeta. split; intros Hu.
  - destruct (interleave_switch false sched exit_writes g
                (SetStuckMonitor_steps os m)) as [n Hn].
    { repeat constructor; intros g0; cbn; auto. }
    rewrite Hn.
    apply (proj1 (SetStuckMonitor_switch os g m false n)).
    left. split; [reflexivity | exact Hu].
  - destruct (interleave_switch true sched (entry_writes hWnd) g
                (SetStuckMonitor_steps os m)) as [n Hn].
    { repeat constructor; intros g0; cbn; auto. }
    rewrite Hn.
    destruct (proj1 (SetStuckMonitor_switch os g m true n)) as [H | H].
    { right. split; [reflexivity | exact Hu]. }
    + left. exact H.
    + right. rewrite H. reflexivity.
Qed.

Lemma X19_witness :
  let os := sample_os full_rect 100 [100] 1 in
  let g := set_forceSecondary true (set_fullscreenApp 100 running0) in
  g_unloading g = false /\
  acts_on_a_snapshot os g exit_writes
    [Handler; Handler; Poll; Handler; Poll; Handler; Handler] 12.
Proof.
  cbv zeta. split; [reflexivity|].
  exact (proj1 (X19_transitions_seen_whole (sample_os full_rect 100 [100] 1)
                  (set_forceSecondary true (set_fullscreenApp 100 running0))
                  100 [Handler; Handler; Poll; Handler; Poll; Handler; Handler]
                  12) eq_refl).
Defined.

(** X20: outside shutdown the stuck-monitor hook never hands a null display
    to the original, whichever transition of the poll loop runs alongside
    and however its loads fall between the writes, as long as the
    unintercepted query answers a display at the origin. *)
Theorem X20_never_null_under_interleaving (os : OS) (g : Globals)
    (hWnd : HWND) (writes : list (Globals -> Globals)) (sched : list Actor)
    (m : HMONITOR) :
  writes = entry_writes hWnd \/ writes = exit_writes ->
  g_unloading g = false ->
  MonitorFromPoint_Original os (mkPOINT 0 0) MONITOR_DEFAULTTONEAREST
    <> nullptr ->
  interleave sched writes g (SetStuckMonitor_steps os m) <> nullptr.
Proof.
  intros Hwr Hu Hq.
  destruct (transition_writes_ok hWnd writes Hwr) as (c & Hw & _).
  destruct (interleave_switch c sched writes g (SetStuckMonitor_steps os m) Hw)
    as [n Hn].
  rewrite Hn. apply (proj2 (SetStuckMonitor_switch os g m c n)); assumption.
Qed.

Lemma X20_witness :
  let os := sample_os full_rect 100 [] 1 in
  let g := set_primaryMonitor nullptr running0 in
  g_unloading g = false /\
  MonitorFromPoint_Original os (mkPOINT 0 0) MONITOR_DEFAULTTONEAREST
    <> nullptr /\
  interleave [Handler; Handler; Handler; Handler; Poll; Poll]
    (entry_writes 100) g (SetStuckMonitor_steps os nullptr) <> nullptr.
Proof.
  cbv zeta.
  assert (Hq : MonitorFromPoint_Original (sample_os full_rect 100 [] 1)
                 (mkPOINT 0 0) MONITOR_DEFAULTTONEAREST <> nullptr)
    by (vm_compute; discriminate).
  split; [reflexivity|]. split; [exact Hq|].
  exact (X20_never_null_under_interleaving (sample_os full_rect 100 [] 1)
           (set_primaryMonitor nullptr running0) 100 (entry_writes 100)
           [Handler; Handler; Handler; Handler; Poll; Poll] nullptr
           (or_introl eq_refl) eq_refl Hq).
Defined.

(** ** The poll thread from start to end *)

Lemma MonitorThreadFunc_run (ticks : list OS) (g : Globals) :
  MonitorThreadFunc ticks g =
  if is_null (g_secondaryMonitor g) then (1, g, [])
  else let r := poll_loop loop_body ticks nullptr g in
       (0, state_of r, trace_of r).
Proof.
  unfold MonitorThreadFunc, MonitorThreadFunc_with, bind, get, ret.
  cbv beta iota. destruct (is_null (g_secondaryMonitor g)); [reflexivity|].
  destruct (poll_loop loop_body ticks nullptr g) as [[l s] t].
  unfold state_of, trace_of. cbn [fst snd]. rewrite app_nil_r. reflexivity.
Qed.

Lemma Wh_ModInit_true (os : OS) (g : Globals) :
  result_of (Wh_ModInit os g) = true ->
  g_secondaryMonitor (state_of (Wh_ModInit os g)) <> nullptr /\
  g_forceSecondary (state_of (Wh_ModInit os g)) = g_forceSecondary g /\
  g_fullscreenApp (state_of (Wh_ModInit os g)) = g_fullscreenApp g.
Proof.
  rewrite Wh_ModInit_run. cbv zeta.
  destruct (is_null (g_primaryMonitor _) || is_null (g_secondaryMonitor _))
    eqn:Hreg; [discriminate|].
  destruct (negb (HookSymbols_ok os)); [discriminate|].
  destruct (is_null (CreateThread_result os)); [discriminate|].
  intros _. apply orb_false_iff in Hreg. destruct Hreg as [_ Hs].
  apply is_null_false in Hs. rewrite state_of_triple.
  split; [exact Hs|]. split; reflexivity.
Qed.

(** X21: [MonitorThreadFunc] gives up with exit code 1, before any pass and
    without touching anything, when no secondary display is known.  Started
    on the state a successful [Wh_ModInit] leaves, it never does so: it runs
    the poll loop from a null examined window and ends with exit code 0,
    with the registry as initialisation left it and with the tracked window
    and the forcing flag still going together. *)
Theorem X21_poll_thread_run (ticks : list OS) (g : Globals) :
  (g_secondaryMonitor g = nullptr -> MonitorThreadFunc ticks g = (1, g, [])) /\
  (forall os0,
     tracking_consistent g ->
     result_of (Wh_ModInit os0 g) = true ->
     let g1 := state_of (Wh_ModInit os0 g) in
     let r := MonitorThreadFunc ticks g1 in
     result_of r = 0 /\
     state_of r = state_of (poll_loop loop_body ticks nullptr g1) /\
     trace_of r = trace_of (poll_loop loop_body ticks nullptr g1) /\
     tracking_consistent (state_of r) /\
     g_primaryMonitor (state_of r) = g_primaryMonitor g1 /\
     g_secondaryMonitor (state_of r) = g_secondaryMonitor g1).
Proof.
  split.
  - intros Hs. rewrite MonitorThreadFunc_run. apply is_null_true in Hs.
    rewrite Hs. reflexivity.
  - intros os0 Hc Hr. cbv zeta.
    destruct (Wh_ModInit_true os0 g Hr) as (Hs & Hf & Ha).
    assert (Hc1 : tracking_consistent (state_of (Wh_ModInit os0 g)))
      by (unfold tracking_consistent; rewrite Hf, Ha; exact Hc).
    rewrite MonitorThreadFunc_run. apply is_null_false in Hs. rewrite Hs.
    cbv zeta.
    rewrite result_of_triple, state_of_triple, trace_of_triple.
    destruct (poll_loop_invariants ticks nullptr _ Hc1) as (Hc2 & Hfr & _).
    destruct Hfr as (_ & _ & _ & Hp & Hsec & _).
    repeat split; assumption.
Qed.

Lemma X21_witness :
  let os0 := sample_os full_rect 100 [] 1 in
  let ticks := [sample_os full_rect 100 [] 1; sample_os full_rect 200 [100] 1] in
  tracking_consistent globals0 /\
  result_of (Wh_ModInit os0 globals0) = true /\
  result_of (MonitorThreadFunc ticks (state_of (Wh_ModInit os0 globals0))) = 0.
Proof.
  cbv zeta.
  assert (Hc : tracking_consistent globals0) by reflexivity.
  assert (Hr : result_of (Wh_ModInit (sample_os full_rect 100 [] 1) globals0)
               = true) by (vm_compute; reflexivity).
  split; [exact Hc|]. split; [exact Hr|].
  exact (proj1 (proj2 (X21_poll_thread_run
                         [sample_os full_rect 100 [] 1;
                          sample_os full_rect 200 [100] 1] globals0)
                      (sample_os full_rect 100 [] 1) Hc Hr)).
Defined.

(** ** The gate, pass by pass *)

Lemma entry_trace_length (os : OS) (w : HWND) (g : Globals) :
  length (snd (entry_transition os w g)) = 1%nat.
Proof. reflexivity. Qed.

(** X22: on a single pass the gated loop body and the body that examines
    the foreground window every time give the same result, state and trace
    exactly when the gate hides nothing, that is, unless the foreground
    window is the one examined on the previous pass, is classified
    fullscreen now, and nothing is tracked once the liveness check is done;
    over a run on which the gate never hides anything the two loops
    agree. *)
Theorem X22_where_the_gate_matters (os : OS) (last : HWND) (g : Globals) :
  (gate_hides os last g = false <->
   loop_body os last g = loop_body_every_tick os last g) /\
  (forall ticks,
     gate_never_hides ticks last g = true ->
     poll_loop loop_body ticks last g
     = poll_loop loop_body_every_tick ticks last g).
Proof.
  split; [|intros ticks; apply poll_loop_gate_agree].
  split; [apply loop_body_gate_agree|].
  intros Heq. destruct (gate_hides os last g) eqn:Hh; [exfalso|reflexivity].
  assert (Hlen : length (trace_of (loop_body os last g))
                 = length (trace_of (loop_body_every_tick os last g)))
    by (rewrite Heq; reflexivity).
  clear Heq. revert Hlen.
  rewrite loop_body_unfold, loop_body_every_tick_unfold. cbv zeta.
  unfold gate_hides in Hh. apply andb_true_iff in Hh. destruct Hh as [Hfg Hh].
  rewrite Hfg. cbn [negb andb].
  destruct (negb (is_null (g_fullscreenApp g))
            && negb (IsWindow os (g_fullscreenApp g))).
  - unfold restore_transition. cbv beta iota.
    rewrite (IsWindowFullscreen_reads os
               (set_taskbarHwnd (resolve_taskbar os g)
                  (set_forceSecondary false (set_fullscreenApp nullptr g)))
               (set_taskbarHwnd (resolve_taskbar os g) g))
      by reflexivity.
    rewrite Hh. cbn. discriminate.
  - rewrite Hh. cbn. discriminate.
Qed.

Lemma X22_witness :
  let ticks := [sample_os full_rect 100 [] 1; sample_os full_rect 200 [100] 1] in
  gate_never_hides ticks nullptr running0 = true /\
  poll_loop loop_body ticks nullptr running0
  = poll_loop loop_body_every_tick ticks nullptr running0.
Proof.
  cbv zeta.
  assert (Hn : gate_never_hides
                 [sample_os full_rect 100 [] 1; sample_os full_rect 200 [100] 1]
                 nullptr running0 = true) by (vm_compute; reflexivity).
  split; [exact Hn|].
  exact (proj2 (X22_where_the_gate_matters (sample_os full_rect 100 [] 1)
                  nullptr running0) _ Hn).
Defined.
